(** * Velero: the restartable object-store proxy and the e2e test client

    A shallow embedding of

    - [pkg/plugin/clientmgmt/restartable_object_store.go]: the
      [restartableObjectStore] proxy, which forwards every object-store call
      to a delegate dispensed by a shared, restartable plugin process, and
    - [test/e2e/util/k8s] ([NewTestClient] / [InitTestClient]): the
      process-wide test client guarded by a [sync.Once].

    Go methods with a pointer receiver are programs of a small monad: they
    read and write the struct behind the receiver and call out to
    collaborators whose code lives elsewhere (the [RestartableProcess], the
    dispensed plugin, the client factory).  A call to a collaborator is a
    node of the program; what the collaborator answers is supplied by an
    arbitrary handler when the program is run, so every statement below
    holds for every behaviour of the collaborators. *)

From Stdlib Require Import List ZArith.
From stdpp Require Import base strings gmap.
Import ListNotations.

Set Default Proof Using "Type".

(** ** Programs over a receiver and an interface of collaborators *)

Module Go.

(** A Go [error] value: nil is [None], otherwise its message. *)
Definition error : Type := string.

Section Prog.
(** [St] is the struct (or the package variables) the code mutates,
    [Q] the calls it makes on collaborators, [Resp q] what call [q]
    returns. *)
Variables (St Q : Type) (Resp : Q -> Type).

Inductive Prog (R : Type) : Type :=
| Ret (x : R)
| Get (k : St -> Prog R)
| Put (s : St) (k : Prog R)
| Call (q : Q) (k : Resp q -> Prog R).

Arguments Ret {R} x.
Arguments Get {R} k.
Arguments Put {R} s k.
Arguments Call {R} q k.

Fixpoint bind {A B : Type} (p : Prog A) (f : A -> Prog B) : Prog B :=
  match p with
  | Ret x => f x
  | Get k => Get (fun s => bind (k s) f)
  | Put s k => Put s (bind k f)
  | Call q k => Call q (fun a => bind (k a) f)
  end.

(** What a run leaves behind, in program order: the stores to the
    receiver and the calls made on collaborators. *)
Inductive Event : Type :=
| EvWrite (s : St)
| EvCall (q : Q).

Definition calls_of (tr : list Event) : list Q :=
  flat_map (fun e => match e with EvCall q => [q] | EvWrite _ => [] end) tr.

Section Run.
(** [W] is the state of everything outside the receiver.  A
    collaborator may read the receiver (the process calls back into
    [reinitialize]) but only the program stores to it. *)
Variable W : Type.
Variable handler : forall q : Q, St -> W -> Resp q * W.

Record Outcome (R : Type) : Type := mkOutcome {
  result : R;
  final : St;
  world : W;
  trace : list Event
}.

Arguments mkOutcome {R} _ _ _ _.
Arguments result {R} _.
Arguments final {R} _.
Arguments world {R} _.
Arguments trace {R} _.

Definition logged {R : Type} (e : Event) (o : Outcome R) : Outcome R :=
  mkOutcome (result o) (final o) (world o) (e :: trace o).

Fixpoint run {R : Type} (p : Prog R) (s : St) (w : W) : Outcome R :=
  match p with
  | Ret x => mkOutcome x s w []
  | Get k => run (k s) s w
  | Put s' k => logged (EvWrite s') (run k s' w)
  | Call q k =>
      let aw := handler q s w in
      logged (EvCall q) (run (k (fst aw)) s (snd aw))
  end.
End Run.
End Prog.

Arguments Prog St {Q} Resp R.
Arguments Ret {St Q Resp R} x.
Arguments Get {St Q Resp R} k.
Arguments Put {St Q Resp R} s k.
Arguments Call {St Q Resp R} q k.
Arguments EvWrite {St Q} s.
Arguments EvCall {St Q} q.
Arguments calls_of {St Q} tr.
Arguments bind {St Q Resp A B} p f.
Arguments mkOutcome {St Q W R} _ _ _ _.
Arguments result {St Q W R} _.
Arguments final {St Q W R} _.
Arguments world {St Q W R} _.
Arguments trace {St Q W R} _.
Arguments run {St Q Resp W} handler {R} p s w.

(** A call whose answer is returned as it is. *)
Definition call {St Q : Type} {Resp : Q -> Type} (q : Q) : Prog St Resp (Resp q) :=
  Call q Ret.

(** Reading the receiver, and storing a new value of it. *)
Definition load {St Q : Type} {Resp : Q -> Type} : Prog St Resp St :=
  Get Ret.

Definition store {St Q : Type} {Resp : Q -> Type} (s : St) : Prog St Resp unit :=
  Put s (Ret tt).

(** The programs of one receiver and one interface form a monad; the
    methods below are written with stdpp's [x ← p; k]. *)
#[global] Instance Prog_ret {St Q : Type} {Resp : Q -> Type} :
  MRet (@Prog St Q Resp) := fun _ x => Ret x.
#[global] Instance Prog_bind {St Q : Type} {Resp : Q -> Type} :
  MBind (@Prog St Q Resp) := fun _ _ f p => bind p f.

End Go.

Import Go.

(** ** Types the two packages take from elsewhere

    Values of Go types declared outside the repository's sources are opaque:
    the proxy only passes them on.  [ObjectStoreClient] stands for the
    non-nil values of [objectstorev2.ObjectStore], [RestartableProcess] for
    the values of the interface of that name, [PluginKindObjectStoreV2] for
    the constant of package [framework]. *)

Class Collaborators : Type := {
  context_Context : Type;
  io_Reader : Type;
  io_ReadCloser : Type;
  ObjectStoreClient : Type;
  RestartableProcess : Type;
  PluginKindObjectStoreV2 : string
}.

(** [time.Duration] is an [int64] count of nanoseconds. *)
Definition time_Duration : Type := Z.

(** ** The [objectstorev2.ObjectStore] interface, as the proxy uses it

    One constructor per method the proxy invokes on its delegate, with the
    method's arguments; [Returns m] is the method's result type.  A nil
    map, slice or interface value is [None]; a [(T, error)] result is a
    pair, since a plugin may return both. *)

Module objectstorev2.
Section Interface.
Context `{Collaborators}.

Inductive Method : Type :=
| Init (config : option (gmap string string))
| PutObject (bucket key : string) (body : io_Reader)
| ObjectExists (bucket key : string)
| GetObject (bucket key : string)
| ListCommonPrefixes (bucket prefix delimiter : string)
| ListObjects (bucket prefix : string)
| DeleteObject (bucket key : string)
| CreateSignedURL (bucket key : string) (ttl : time_Duration)
| PutObjectV2 (ctx : context_Context) (bucket key : string) (body : io_Reader)
| ObjectExistsV2 (ctx : context_Context) (bucket key : string)
| GetObjectV2 (ctx : context_Context) (bucket key : string)
| ListCommonPrefixesV2 (ctx : context_Context) (bucket prefix delimiter : string)
| ListObjectsV2 (ctx : context_Context) (bucket prefix : string)
| DeleteObjectV2 (ctx : context_Context) (bucket key : string)
| CreateSignedURLV2 (ctx : context_Context) (bucket key : string) (ttl : time_Duration).

Definition Returns (m : Method) : Type :=
  match m with
  | Init _ | PutObject _ _ _ | DeleteObject _ _
  | PutObjectV2 _ _ _ _ | DeleteObjectV2 _ _ _ => option error
  | ObjectExists _ _ | ObjectExistsV2 _ _ _ => (bool * option error)%type
  | GetObject _ _ | GetObjectV2 _ _ _ => (option io_ReadCloser * option error)%type
  | ListCommonPrefixes _ _ _ | ListObjects _ _
  | ListCommonPrefixesV2 _ _ _ _ | ListObjectsV2 _ _ _ =>
      (option (list string) * option error)%type
  | CreateSignedURL _ _ _ | CreateSignedURLV2 _ _ _ _ => (string * option error)%type
  end.

Definition is_Init (m : Method) : bool :=
  match m with Init _ => true | _ => false end.

(** The error a result carries. *)
Definition error_of (m : Method) : Returns m -> option error :=
  match m return Returns m -> option error with
  | Init _ | PutObject _ _ _ | DeleteObject _ _
  | PutObjectV2 _ _ _ _ | DeleteObjectV2 _ _ _ => fun e => e
  | _ => fun ve => snd ve
  end.
End Interface.
End objectstorev2.

(** ** Package [clientmgmt]: [restartable_object_store.go] *)

Module clientmgmt.
Section Proxy.
Context `{Collaborators}.

Record kindAndName : Type := mkKindAndName {
  kind : string;
  name : string
}.

Record restartableObjectStore : Type := mkRestartableObjectStore {
  key : kindAndName;
  sharedPluginProcess : RestartableProcess;
  (* nil until Init stores a non-nil map *)
  config : option (gmap string string)
}.

Definition set_config (r : restartableObjectStore)
    (cfg : option (gmap string string)) : restartableObjectStore :=
  mkRestartableObjectStore (key r) (sharedPluginProcess r) cfg.

(** A value of type [interface{}] handed out by the process: either it
    implements [objectstorev2.ObjectStore], or it is some other value
    (nil included), of which only the name of its dynamic type, as
    [%T] prints it, matters. *)
Inductive dispensed : Type :=
| IsObjectStore (objectStore : ObjectStoreClient)
| NotObjectStore (T : string).

(** The calls the proxy makes: three methods of [RestartableProcess]
    and the methods of the delegate. *)
Inductive Request : Type :=
| addReinitializer (p : RestartableProcess) (key : kindAndName)
| resetIfNeeded (p : RestartableProcess)
| getByKindAndName (p : RestartableProcess) (key : kindAndName)
| Invoke (delegate : ObjectStoreClient) (m : objectstorev2.Method).

Definition Response (q : Request) : Type :=
  match q with
  | addReinitializer _ _ => unit
  | resetIfNeeded _ => option error
  | getByKindAndName _ _ => (dispensed * option error)%type
  | Invoke _ m => objectstorev2.Returns m
  end.

Definition is_Invoke (q : Request) : bool :=
  match q with Invoke _ _ => true | _ => false end.

Definition is_resetIfNeeded (q : Request) : bool :=
  match q with resetIfNeeded _ => true | _ => false end.

Definition M : Type -> Type := Prog restartableObjectStore Response.

(** [errors.Errorf] with a constant format, and with the one format
    of this file that has a verb: ["%T is not a ObjectStore!"]. *)
Definition Errorf (format : string) : error := format.

Definition Errorf_not_ObjectStore (T : string) : error :=
  String.append T " is not a ObjectStore!".

Definition AlreadyInitializedError : error := Errorf "already initialized".

Definition newRestartableObjectStoreV2 (name : string)
    (sharedPluginProcess : RestartableProcess) : M unit :=
  let key := mkKindAndName PluginKindObjectStoreV2 name in
  store (mkRestartableObjectStore key sharedPluginProcess None);;
  call (addReinitializer sharedPluginProcess key).

Definition init (objectStore : ObjectStoreClient)
    (cfg : option (gmap string string)) : M (option error) :=
  call (Invoke objectStore (objectstorev2.Init cfg)).

Definition reinitialize (d : dispensed) : M (option error) :=
  match d with
  | NotObjectStore T => mret (Some (Errorf_not_ObjectStore T))
  | IsObjectStore objectStore =>
      r ← load;
      init objectStore (config r)
  end.

(** Returns [(objectStore, nil)] as [inl objectStore] and [(nil, err)]
    as [inr err]. *)
Definition getObjectStore : M (ObjectStoreClient + error) :=
  r ← load;
  '(plugin, err) ← call (getByKindAndName (sharedPluginProcess r) (key r));
  match err with
  | Some err => mret (inr err)
  | None =>
      match plugin with
      | NotObjectStore T => mret (inr (Errorf_not_ObjectStore T))
      | IsObjectStore objectStore => mret (inl objectStore)
      end
  end.

Definition getDelegate : M (ObjectStoreClient + error) :=
  r ← load;
  err ← call (resetIfNeeded (sharedPluginProcess r));
  match err with
  | Some err => mret (inr err)
  | None => getObjectStore
  end.

Definition Init (cfg : option (gmap string string)) : M (option error) :=
  r ← load;
  match config r with
  | Some _ => mret (Some AlreadyInitializedError)
  | None =>
      d ← getObjectStore;
      match d with
      | inr err => mret (Some err)
      | inl delegate =>
          r ← load;
          store (set_config r cfg);;
          init delegate cfg
      end
  end.

Definition InitV2 (ctx : context_Context)
    (cfg : option (gmap string string)) : M (option error) :=
  Init cfg.

(** The forwarding methods.  Each returns the zero value of its result
    type with the error of [getDelegate], or else what the delegate
    returns. *)

Definition PutObject (bucket : string) (key : string) (body : io_Reader) :
    M (option error) :=
  d ← getDelegate;
  match d with
  | inr err => mret (Some err)
  | inl delegate => call (Invoke delegate (objectstorev2.PutObject bucket key body))
  end.

Definition ObjectExists (bucket : string) (key : string) :
    M (bool * option error) :=
  d ← getDelegate;
  match d with
  | inr err => mret (false, Some err)
  | inl delegate => call (Invoke delegate (objectstorev2.ObjectExists bucket key))
  end.

Definition GetObject (bucket : string) (key : string) :
    M (option io_ReadCloser * option error) :=
  d ← getDelegate;
  match d with
  | inr err => mret (None, Some err)
  | inl delegate => call (Invoke delegate (objectstorev2.GetObject bucket key))
  end.

Definition ListCommonPrefixes (bucket : string) (prefix : string) (delimiter : string) :
    M (option (list string) * option error) :=
  d ← getDelegate;
  match d with
  | inr err => mret (None, Some err)
  | inl delegate => call (Invoke delegate (objectstorev2.ListCommonPrefixes bucket prefix delimiter))
  end.

Definition ListObjects (bucket : string) (prefix : string) :
    M (option (list string) * option error) :=
  d ← getDelegate;
  match d with
  | inr err => mret (None, Some err)
  | inl delegate => call (Invoke delegate (objectstorev2.ListObjects bucket prefix))
  end.

Definition DeleteObject (bucket : string) (key : string) :
    M (option error) :=
  d ← getDelegate;
  match d with
  | inr err => mret (Some err)
  | inl delegate => call (Invoke delegate (objectstorev2.DeleteObject bucket key))
  end.

Definition CreateSignedURL (bucket : string) (key : string) (ttl : time_Duration) :
    M (string * option error) :=
  d ← getDelegate;
  match d with
  | inr err => mret (EmptyString, Some err)
  | inl delegate => call (Invoke delegate (objectstorev2.CreateSignedURL bucket key ttl))
  end.

(* Version 2 *)

Definition PutObjectV2 (ctx : context_Context) (bucket : string) (key : string) (body : io_Reader) :
    M (option error) :=
  d ← getDelegate;
  match d with
  | inr err => mret (Some err)
  | inl delegate => call (Invoke delegate (objectstorev2.PutObjectV2 ctx bucket key body))
  end.

Definition ObjectExistsV2 (ctx : context_Context) (bucket : string) (key : string) :
    M (bool * option error) :=
  d ← getDelegate;
  match d with
  | inr err => mret (false, Some err)
  | inl delegate => call (Invoke delegate (objectstorev2.ObjectExistsV2 ctx bucket key))
  end.

Definition GetObjectV2 (ctx : context_Context) (bucket : string) (key : string) :
    M (option io_ReadCloser * option error) :=
  d ← getDelegate;
  match d with
  | inr err => mret (None, Some err)
  | inl delegate => call (Invoke delegate (objectstorev2.GetObjectV2 ctx bucket key))
  end.

Definition ListCommonPrefixesV2 (ctx : context_Context) (bucket : string) (prefix : string) (delimiter : string) :
    M (option (list string) * option error) :=
  d ← getDelegate;
  match d with
  | inr err => mret (None, Some err)
  | inl delegate => call (Invoke delegate (objectstorev2.ListCommonPrefixesV2 ctx bucket prefix delimiter))
  end.

Definition ListObjectsV2 (ctx : context_Context) (bucket : string) (prefix : string) :
    M (option (list string) * option error) :=
  d ← getDelegate;
  match d with
  | inr err => mret (None, Some err)
  | inl delegate => call (Invoke delegate (objectstorev2.ListObjectsV2 ctx bucket prefix))
  end.

Definition DeleteObjectV2 (ctx : context_Context) (bucket : string) (key : string) :
    M (option error) :=
  d ← getDelegate;
  match d with
  | inr err => mret (Some err)
  | inl delegate => call (Invoke delegate (objectstorev2.DeleteObjectV2 ctx bucket key))
  end.

Definition CreateSignedURLV2 (ctx : context_Context) (bucket : string) (key : string) (ttl : time_Duration) :
    M (string * option error) :=
  d ← getDelegate;
  match d with
  | inr err => mret (EmptyString, Some err)
  | inl delegate => call (Invoke delegate (objectstorev2.CreateSignedURLV2 ctx bucket key ttl))
  end.

(** The proxy implements the interface: the method of the proxy that
    answers a given method call. *)
Definition method (m : objectstorev2.Method) : M (objectstorev2.Returns m) :=
  match m return M (objectstorev2.Returns m) with
  | objectstorev2.Init cfg => Init cfg
  | objectstorev2.PutObject bucket key body => PutObject bucket key body
  | objectstorev2.ObjectExists bucket key => ObjectExists bucket key
  | objectstorev2.GetObject bucket key => GetObject bucket key
  | objectstorev2.ListCommonPrefixes bucket prefix delimiter => ListCommonPrefixes bucket prefix delimiter
  | objectstorev2.ListObjects bucket prefix => ListObjects bucket prefix
  | objectstorev2.DeleteObject bucket key => DeleteObject bucket key
  | objectstorev2.CreateSignedURL bucket key ttl => CreateSignedURL bucket key ttl
  | objectstorev2.PutObjectV2 ctx bucket key body => PutObjectV2 ctx bucket key body
  | objectstorev2.ObjectExistsV2 ctx bucket key => ObjectExistsV2 ctx bucket key
  | objectstorev2.GetObjectV2 ctx bucket key => GetObjectV2 ctx bucket key
  | objectstorev2.ListCommonPrefixesV2 ctx bucket prefix delimiter => ListCommonPrefixesV2 ctx bucket prefix delimiter
  | objectstorev2.ListObjectsV2 ctx bucket prefix => ListObjectsV2 ctx bucket prefix
  | objectstorev2.DeleteObjectV2 ctx bucket key => DeleteObjectV2 ctx bucket key
  | objectstorev2.CreateSignedURLV2 ctx bucket key ttl => CreateSignedURLV2 ctx bucket key ttl
  end.

(** What a forwarding method returns when [getDelegate] fails with
    [err]: the zero value of the result type, and [err]. *)
Definition zero_with (m : objectstorev2.Method) (err : error) : objectstorev2.Returns m :=
  match m return objectstorev2.Returns m with
  | objectstorev2.Init _ | objectstorev2.PutObject _ _ _
  | objectstorev2.DeleteObject _ _ | objectstorev2.PutObjectV2 _ _ _ _
  | objectstorev2.DeleteObjectV2 _ _ _ => Some err
  | objectstorev2.ObjectExists _ _ | objectstorev2.ObjectExistsV2 _ _ _ =>
      (false, Some err)
  | objectstorev2.GetObject _ _ | objectstorev2.GetObjectV2 _ _ _ =>
      (None, Some err)
  | objectstorev2.ListCommonPrefixes _ _ _ | objectstorev2.ListObjects _ _
  | objectstorev2.ListCommonPrefixesV2 _ _ _ _
  | objectstorev2.ListObjectsV2 _ _ _ => (None, Some err)
  | objectstorev2.CreateSignedURL _ _ _
  | objectstorev2.CreateSignedURLV2 _ _ _ _ => (EmptyString, Some err)
  end.

(** *** Sequences of calls on one proxy

    The two initialization surfaces, and any call a caller or the shared
    process can make on the proxy: a method of the interface, [InitV2], or
    [reinitialize] with a freshly dispensed value. *)

Inductive Surface : Type :=
| Legacy
| ContextAware (ctx : context_Context).

Definition initialize (via : Surface) (cfg : option (gmap string string)) :
    M (option error) :=
  match via with
  | Legacy => Init cfg
  | ContextAware ctx => InitV2 ctx cfg
  end.

Inductive Invocation : Type :=
| OnMethod (m : objectstorev2.Method)
| OnInitV2 (ctx : context_Context) (cfg : option (gmap string string))
| OnReinitialize (d : dispensed).

Definition invoke (i : Invocation) : M unit :=
  match i with
  | OnMethod m => method m;; mret tt
  | OnInitV2 ctx cfg => InitV2 ctx cfg;; mret tt
  | OnReinitialize d => reinitialize d;; mret tt
  end.

Fixpoint invoke_all (l : list Invocation) : M unit :=
  match l with
  | [] => mret tt
  | i :: l' => invoke i;; invoke_all l'
  end.

(** No call in the trace reaches a delegate, respectively restarts the
    process. *)
Definition no_Invoke (tr : list (Event restartableObjectStore Request)) : bool :=
  forallb (fun q => negb (is_Invoke q)) (calls_of tr).

Definition no_resetIfNeeded (tr : list (Event restartableObjectStore Request)) : bool :=
  forallb (fun q => negb (is_resetIfNeeded q)) (calls_of tr).

(** *** A scripted shared process

    A handler that answers every call from a fixed script and counts the
    calls it has answered: the process a test would mock. *)

Record Script : Type := mkScript {
  on_resetIfNeeded : option error;
  on_getByKindAndName : dispensed * option error;
  on_Init : option error
}.

Definition answered (m : objectstorev2.Method) : objectstorev2.Returns m :=
  match m return objectstorev2.Returns m with
  | objectstorev2.Init _ | objectstorev2.PutObject _ _ _
  | objectstorev2.DeleteObject _ _ | objectstorev2.PutObjectV2 _ _ _ _
  | objectstorev2.DeleteObjectV2 _ _ _ => None
  | objectstorev2.ObjectExists _ _ | objectstorev2.ObjectExistsV2 _ _ _ =>
      (true, None)
  | objectstorev2.GetObject _ _ | objectstorev2.GetObjectV2 _ _ _ =>
      (None, None)
  | objectstorev2.ListCommonPrefixes _ prefix _
  | objectstorev2.ListObjects _ prefix
  | objectstorev2.ListCommonPrefixesV2 _ _ prefix _
  | objectstorev2.ListObjectsV2 _ _ prefix => (Some [prefix], None)
  | objectstorev2.CreateSignedURL bucket _ _
  | objectstorev2.CreateSignedURLV2 _ bucket _ _ => (bucket, None)
  end.

Definition scripted (sc : Script) (q : Request) (r : restartableObjectStore)
    (n : nat) : Response q * nat :=
  (match q return Response q with
   | addReinitializer _ _ => tt
   | resetIfNeeded _ => on_resetIfNeeded sc
   | getByKindAndName _ _ => on_getByKindAndName sc
   | Invoke _ (objectstorev2.Init _) => on_Init sc
   | Invoke _ m => answered m
   end, S n).

Definition healthy (objectStore : ObjectStoreClient) : Script :=
  mkScript None (IsObjectStore objectStore, None) None.
End Proxy.
End clientmgmt.

(** ** Package [k8s] of the e2e tests: [NewTestClient]

    The package variables [once], [testClient] and [err] are the state;
    the calls go to package [client] (configuration and client factory). *)

Class ClientPackage : Type := {
  client_VeleroConfig : Type;
  client_Factory : Type;
  kubernetes_Interface : Type;
  kbclient_Client : Type;
  dynamic_Interface : Type;
  client_DynamicFactory : Type
}.

Module k8s.
Section TestClient.
Context `{ClientPackage}.

(** Every field has an interface type; its zero value, nil, is [None]. *)
Record TestClient : Type := mkTestClient {
  Kubebuilder : option kbclient_Client;
  ClientGo : option kubernetes_Interface;
  dynamicFactory : option client_DynamicFactory
}.

Inductive Request : Type :=
| LoadConfig
| NewFactory (baseName : string) (config : client_VeleroConfig)
| KubeClient (f : client_Factory)
| KubebuilderClient (f : client_Factory)
| DynamicClient (f : client_Factory)
| NewDynamicFactory (dynamicClient : option dynamic_Interface).

Definition Response (q : Request) : Type :=
  match q with
  | LoadConfig => (client_VeleroConfig * option error)%type
  | NewFactory _ _ => client_Factory
  | KubeClient _ => (option kubernetes_Interface * option error)%type
  | KubebuilderClient _ => (option kbclient_Client * option error)%type
  | DynamicClient _ => (option dynamic_Interface * option error)%type
  | NewDynamicFactory _ => option client_DynamicFactory
  end.

(** The [var] block: [once] is a [sync.Once], of which only whether it
    has fired matters when calls do not overlap. *)
Record Globals : Type := mkGlobals {
  once : bool;
  testClient : TestClient;
  err : option error
}.

Definition zero_TestClient : TestClient := mkTestClient None None None.

(** The package variables when the program starts. *)
Definition initial : Globals := mkGlobals false zero_TestClient None.

Definition M : Type -> Type := Prog Globals Response.

Definition InitTestClient : M (TestClient * option error) :=
  '(config, err) ← call LoadConfig;
  match err with
  | Some err => mret (zero_TestClient, Some err)
  | None =>
      f ← call (NewFactory "e2e" config);
      '(clientGo, err) ← call (KubeClient f);
      match err with
      | Some err => mret (zero_TestClient, Some err)
      | None =>
          '(kb, err) ← call (KubebuilderClient f);
          match err with
          | Some err => mret (zero_TestClient, Some err)
          | None =>
              '(dynamicClient, err) ← call (DynamicClient f);
              match err with
              | Some err => mret (zero_TestClient, Some err)
              | None =>
                  factory ← call (NewDynamicFactory dynamicClient);
                  mret (mkTestClient kb clientGo factory, None)
              end
          end
      end
  end.

(** [once.Do(f)]: runs [f] unless [once] has fired, and fires it. *)
Definition once_Do (f : M unit) : M unit :=
  g ← load;
  if once g then mret tt
  else
    f;;
    g ← load;
    store (mkGlobals true (testClient g) (err g)).

Definition NewTestClient : M (TestClient * option error) :=
  once_Do (
    r ← InitTestClient;
    g ← load;
    store (mkGlobals (once g) (fst r) (snd r)));;
  g ← load;
  mret (testClient g, err g).

(** [n] calls of [NewTestClient], one after the other, with what each
    returned. *)
Fixpoint NewTestClient_times (n : nat) : M (list (TestClient * option error)) :=
  match n with
  | O => mret []
  | S n' =>
      r ← NewTestClient;
      rs ← NewTestClient_times n';
      mret (r :: rs)
  end.
End TestClient.
End k8s.

(** ** Fixtures: concrete collaborators for the examples below *)

Module Fixture.

Definition collaborators : Collaborators :=
  Build_Collaborators unit string string nat unit "ObjectStoreV2".

#[export] Existing Instance collaborators.

(** [context.Background()], the one shared process, and the delegate
    it dispenses. *)
Definition background : context_Context := tt.
Definition process : RestartableProcess := tt.
Definition plugin : ObjectStoreClient := 7.
Definition data : io_Reader := "some bytes".

Definition s3 : clientmgmt.kindAndName :=
  clientmgmt.mkKindAndName "ObjectStoreV2" "s3".

(** The proxy as [newRestartableObjectStoreV2 "s3" p] leaves it. *)
Definition fresh : clientmgmt.restartableObjectStore :=
  clientmgmt.mkRestartableObjectStore s3 process None.

Definition m1 : gmap string string := {[ "bucket" := "b1" ]}.
Definition b1 : option (gmap string string) := Some m1.
Definition b2 : option (gmap string string) := Some {[ "bucket" := "b2" ]}.

(** The delegate is dispensed and every call succeeds. *)
Definition up : clientmgmt.Script := clientmgmt.healthy plugin.

(** The restart fails; the lookup fails; the dispensed value is not an
    object store; the plugin rejects its configuration. *)
Definition restart_fails : clientmgmt.Script :=
  clientmgmt.mkScript (Some "launch failed") (clientmgmt.IsObjectStore plugin, None) None.

Definition lookup_fails : clientmgmt.Script :=
  clientmgmt.mkScript None (clientmgmt.NotObjectStore "<nil>", Some "getByKindAndName error") None.

Definition wrong_kind : clientmgmt.Script :=
  clientmgmt.mkScript None (clientmgmt.NotObjectStore "*snapshotter", None) None.

Definition init_fails : clientmgmt.Script :=
  clientmgmt.mkScript None (clientmgmt.IsObjectStore plugin, None) (Some "Init error").

Definition client_package : ClientPackage :=
  Build_ClientPackage unit unit nat nat nat nat.

#[export] Existing Instance client_package.

(** A cluster whose configuration loads and whose factory hands out
    clients numbered by the calls answered so far, and one whose
    configuration cannot be loaded. *)
Definition cluster (q : k8s.Request) (g : k8s.Globals) (n : nat) :
    k8s.Response q * nat :=
  (match q return k8s.Response q with
   | k8s.LoadConfig => (tt, None)
   | k8s.NewFactory _ _ => tt
   | k8s.KubeClient _ => (Some n, None)
   | k8s.KubebuilderClient _ => (Some n, None)
   | k8s.DynamicClient _ => (Some n, None)
   | k8s.NewDynamicFactory _ => Some n
   end, S n).

Definition no_cluster (q : k8s.Request) (g : k8s.Globals) (n : nat) :
    k8s.Response q * nat :=
  (match q return k8s.Response q with
   | k8s.LoadConfig => (tt, Some "no kubeconfig")
   | k8s.NewFactory _ _ => tt
   | k8s.KubeClient _ => (None, None)
   | k8s.KubebuilderClient _ => (None, None)
   | k8s.DynamicClient _ => (None, None)
   | k8s.NewDynamicFactory _ => None
   end, S n).

End Fixture.

(** ** Reading the calls of a proxy's run *)

Module ProxyCalls.
Section Calls.
Context `{Collaborators}.
Import clientmgmt.

(** The call is one the proxy [r] may make after its construction: on
    its own process, with its own key, or on a delegate. *)
Definition addressed_by (r : restartableObjectStore) (q : Request) : Prop :=
  match q with
  | addReinitializer _ _ => False
  | resetIfNeeded p => p = sharedPluginProcess r
  | getByKindAndName p k => p = sharedPluginProcess r /\ k = key r
  | Invoke _ _ => True
  end.

(** What a run stored to the proxy, in order. *)
Definition writes (tr : list (Event restartableObjectStore Request)) :
    list restartableObjectStore :=
  flat_map (fun e => match e with EvWrite s => [s] | EvCall _ => [] end) tr.

(** The configuration an invocation initializes with, when it is an
    [Init] through either surface. *)
Definition init_config (i : Invocation) : option (option (gmap string string)) :=
  match i with
  | OnMethod (objectstorev2.Init cfg) => Some cfg
  | OnInitV2 _ cfg => Some cfg
  | _ => None
  end.

(** From the proxy [r], every store of [ws] in turn finds no
    configuration stored and keeps the key and the process. *)
Fixpoint stored_while_empty (r : restartableObjectStore)
    (ws : list restartableObjectStore) : Prop :=
  match ws with
  | [] => True
  | s :: ws' =>
      config r = None /\ key s = key r
      /\ sharedPluginProcess s = sharedPluginProcess r
      /\ stored_while_empty s ws'
  end.

(** How many calls of a run reach a delegate. *)
Definition count_Invoke (tr : list (Event restartableObjectStore Request)) : nat :=
  length (List.filter is_Invoke (calls_of tr)).

(** The calls one invocation on the proxy [r] can make: none, or the
    restart, the lookup and a delegate call in this order, each at most
    once, a later one only after the earlier ones it depends on. *)
Inductive shape (r : restartableObjectStore) : list Request -> Prop :=
| shape_none : shape r []
| shape_reset : shape r [resetIfNeeded (sharedPluginProcess r)]
| shape_lookup : shape r [getByKindAndName (sharedPluginProcess r) (key r)]
| shape_reset_lookup :
    shape r [resetIfNeeded (sharedPluginProcess r);
             getByKindAndName (sharedPluginProcess r) (key r)]
| shape_invoke c m : shape r [Invoke c m]
| shape_lookup_invoke c m :
    shape r [getByKindAndName (sharedPluginProcess r) (key r); Invoke c m]
| shape_reset_lookup_invoke c m :
    shape r [resetIfNeeded (sharedPluginProcess r);
             getByKindAndName (sharedPluginProcess r) (key r); Invoke c m].

Definition count_occ_addReinitializer (qs : list Request) : nat :=
  length (List.filter
            (fun q => match q with addReinitializer _ _ => true | _ => false end)
            qs).

(** Construction followed by the first [Init]. *)
Definition construct_then_Init (name : string) (p : RestartableProcess)
    (cfg : option (gmap string string)) : M (option error) :=
  newRestartableObjectStoreV2 name p;;
  Init cfg.
End Calls.
End ProxyCalls.

(** ** Reading the calls of [InitTestClient] *)

Module TestClientCalls.
Section Calls.
Context `{ClientPackage}.
Import k8s.

(** The calls of a complete [InitTestClient], given the configuration
    loaded, the factory made from it and the dynamic client it built. *)
Definition steps (config : client_VeleroConfig) (f : client_Factory)
    (dynamicClient : option dynamic_Interface) : list Request :=
  [LoadConfig; NewFactory "e2e" config; KubeClient f; KubebuilderClient f;
   DynamicClient f; NewDynamicFactory dynamicClient].

(** [n] direct calls of [InitTestClient], their results dropped. *)
Fixpoint InitTestClient_times (n : nat) : M unit :=
  match n with
  | O => mret tt
  | S n' => InitTestClient;; InitTestClient_times n'
  end.
End Calls.
End TestClientCalls.

(** ** Package [k8s] of the e2e tests: [common.go]

    [CreateSecretFromFiles] and [WaitForPods] take a [TestClient] and talk
    to the cluster through its [ClientGo]; the other functions of the file
    only hand a fixed [kubectl] command line to [os/exec].

    What comes from other packages: the context type, the secret that
    [builder.ForSecret(namespace, name).Data(data).Result()] builds, the
    constant [corev1api.PodRunning], the verb [%q], [fmt.Sprintf] of a
    format without arguments (as [errors.Wrapf] applies it), and
    [wait.ErrWaitTimeout]. *)

Class ClusterPackage : Type := {
  x_context_Context : Type;
  corev1_Secret : Type;
  corev1_PodRunning : string;
  strconv_Quote : string -> string;
  fmt_Sprintf0 : string -> string;
  wait_ErrWaitTimeout : error;
  builder_ForSecret_Data_Result :
    string -> string -> gmap string (list Byte.byte) -> corev1_Secret
}.

Module k8s_common.
Section Common.
Context `{ClientPackage} `{ClusterPackage}.

(** The calls: reading a file, the two requests to the API server (made
    through a non-nil [ClientGo]), printing, and the Go runtime choosing
    the order in which [range] visits the entries of a map. *)
Inductive Request : Type :=
| MapRange (files : gmap string string)
| ReadFile (filename : string)
| SecretsCreate (clientGo : kubernetes_Interface) (namespace : string)
    (ctx : x_context_Context) (secret : corev1_Secret)
| PodsGet (clientGo : kubernetes_Interface) (namespace : string)
    (ctx : x_context_Context) (name : string)
| Printf (text : string).

(** [PodsGet] answers with the phase of the pod it found and an error;
    the phase is read only when the error is nil. *)
Definition Response (q : Request) : Type :=
  match q with
  | MapRange _ => list (string * string)
  | ReadFile _ => (list Byte.byte * option error)%type
  | SecretsCreate _ _ _ _ => (option corev1_Secret * option error)%type
  | PodsGet _ _ _ _ => (string * option error)%type
  | Printf _ => unit
  end.

Definition is_SecretsCreate (q : Request) : bool :=
  match q with SecretsCreate _ _ _ _ => true | _ => false end.

Definition is_PodsGet (q : Request) : bool :=
  match q with PodsGet _ _ _ _ => true | _ => false end.

(** The functions of this file keep no state of their own. *)
Definition M : Type -> Type := Prog unit Response.

(** A call either returns or panics: calling a method on a nil
    [ClientGo] is a nil dereference. *)
Inductive completion (A : Type) : Type :=
| Returned (a : A)
| Panicked.

Arguments Returned {A} a.
Arguments Panicked {A}.

(** [errors.WithMessage(err, message)] and [errors.Wrapf(err, format)]:
    the message of the result is the new message, a colon and a space,
    and the message of [err]. *)
Definition WithMessage (err : error) (message : string) : error :=
  String.append message (String.append ": " err).

Definition Wrapf (err : error) (format : string) : error :=
  String.append (fmt_Sprintf0 format) (String.append ": " err).

(** The loop of [CreateSecretFromFiles] over the entries still to visit:
    [inl data] when every file was read, [inr err] at the first that
    could not be. *)
Fixpoint readFiles (visit : list (string * string))
    (data : gmap string (list Byte.byte)) :
    M (gmap string (list Byte.byte) + error) :=
  match visit with
  | [] => mret (inl data)
  | (key, filePath) :: visit' =>
      '(contents, err) ← call (ReadFile filePath);
      match err with
      | Some err =>
          mret (inr (WithMessage err
                       (String.append "Failed to read secret file "
                          (strconv_Quote filePath))))
      | None => readFiles visit' (<[key := contents]> data)
      end
  end.

Definition CreateSecretFromFiles (ctx : x_context_Context) (client : k8s.TestClient)
    (namespace name : string) (files : gmap string string) :
    M (completion (option error)) :=
  visit ← call (MapRange files);
  d ← readFiles visit ∅;
  match d with
  | inr err => mret (Returned (Some err))
  | inl data =>
      let secret := builder_ForSecret_Data_Result namespace name data in
      match k8s.ClientGo client with
      | None => mret Panicked
      | Some clientGo =>
          '(_, err) ← call (SecretsCreate clientGo namespace ctx secret);
          mret (Returned err)
      end
  end.

Definition newline : string := String (Ascii.ascii_of_nat 10) EmptyString.

(** The condition [WaitForPods] polls: the pods still to check. *)
Fixpoint WaitForPods_condition (ctx : x_context_Context) (client : k8s.TestClient)
    (namespace : string) (pods : list string) :
    M (completion (bool * option error)) :=
  match pods with
  | [] => mret (Returned (true, None))
  | podName :: pods' =>
      match k8s.ClientGo client with
      | None => mret Panicked
      | Some clientGo =>
          '(phase, err) ← call (PodsGet clientGo namespace ctx podName);
          match err with
          | Some err =>
              mret (Returned (false, Some (WithMessage err
                (String.append "Failed to verify pod "
                (String.append namespace
                (String.append "/"
                (String.append podName
                (String.append " is " corev1_PodRunning))))))))
          | None =>
              if String.eqb phase corev1_PodRunning
              then WaitForPods_condition ctx client namespace pods'
              else
                call (Printf
                  (String.append "Pod "
                  (String.append podName
                  (String.append " is in state "
                  (String.append phase
                  (String.append " waiting for it to be "
                  (String.append corev1_PodRunning newline)))))));;
                mret (Returned (false, None))
          end
      end
  end.

(** [wait.PollImmediate(interval, timeout, condition)], by its
    documentation: the condition is checked at once and then at every
    interval, until it returns true or an error, or the timeout is
    reached, which gives [wait.ErrWaitTimeout].  How many intervals fit
    before the timeout is the clock's business: [polls] is the number of
    checks the clock still allows after the one at hand. *)
Fixpoint PollImmediate (polls : nat) (condition : M (completion (bool * option error))) :
    M (completion (option error)) :=
  c ← condition;
  match c with
  | Panicked => mret Panicked
  | Returned (_, Some err) => mret (Returned (Some err))
  | Returned (true, None) => mret (Returned None)
  | Returned (false, None) =>
      match polls with
      | O => mret (Returned (Some wait_ErrWaitTimeout))
      | S polls' => PollImmediate polls' condition
      end
  end.

Definition WaitForPods (polls : nat) (ctx : x_context_Context)
    (client : k8s.TestClient) (namespace : string) (pods : list string) :
    M (completion (option error)) :=
  c ← PollImmediate polls (WaitForPods_condition ctx client namespace pods);
  match c with
  | Panicked => mret Panicked
  | Returned (Some err) =>
      mret (Returned (Some (Wrapf err
        (String.append "Failed to wait for pods in namespace "
        (String.append namespace " to start running")))))
  | Returned None => mret (Returned None)
  end.
End Common.

Arguments Returned {A} a.
Arguments Panicked {A}.
End k8s_common.

(** ** Reading the calls of [common.go] *)

Module CommonCalls.
Section Calls.
Context `{ClientPackage} `{ClusterPackage}.
Import k8s_common.

Definition PodsGet_calls (tr : list (Event unit Request)) : list Request :=
  List.filter is_PodsGet (calls_of tr).

Definition SecretsCreate_calls (tr : list (Event unit Request)) : list Request :=
  List.filter is_SecretsCreate (calls_of tr).

(** The message [WaitForPods] wraps every error in, and the one its
    condition gives to a failed [Get]. *)
Definition waiting_for (namespace : string) : string :=
  String.append "Failed to wait for pods in namespace "
    (String.append namespace " to start running").

Definition verifying (namespace podName : string) : string :=
  String.append "Failed to verify pod "
    (String.append namespace
    (String.append "/"
    (String.append podName
    (String.append " is " corev1_PodRunning)))).
End Calls.
End CommonCalls.

(** ** Fixtures: a cluster for [common.go] *)

Module ClusterFixture.
Import Fixture.

Definition quote_mark : string := String (Ascii.ascii_of_nat 34) EmptyString.

(** Secrets are the triple they are built from; [%q] puts its argument
    between quotes, which is what it does to a path without special
    characters; a format without [%] is printed as it is. *)
Definition cluster_package : ClusterPackage :=
  Build_ClusterPackage unit (string * string * gmap string (list Byte.byte))
    "Running"
    (fun s => String.append quote_mark (String.append s quote_mark))
    (fun format => format)
    "timed out waiting for the condition"
    (fun namespace name data => (namespace, name, data)).

#[export] Existing Instance cluster_package.

Definition todo : x_context_Context := tt.
Definition api : kubernetes_Interface := 1.

Definition connected : k8s.TestClient := k8s.mkTestClient None (Some api) None.
Definition unconnected : k8s.TestClient := k8s.zero_TestClient.

(** Pod [b] is pending, every other pod runs. *)
Definition b_pending (name : string) : string :=
  if String.eqb name "b" then "Pending" else "Running".

Definition all_running (name : string) : string := "Running".

(** A file holds its own path as bytes, except [/missing], which cannot
    be read. *)
Definition content (path : string) : list Byte.byte := String.list_byte_of_string path.

(** A cluster where the pods are in the given phases, every file but
    [/missing] can be read, [range] visits a map in the order of
    [map_to_list], and every secret is accepted. *)
Definition serving (phase : string -> string) (q : k8s_common.Request) (s : unit)
    (n : nat) : k8s_common.Response q * nat :=
  (match q return k8s_common.Response q with
   | k8s_common.MapRange files => map_to_list files
   | k8s_common.ReadFile path =>
       if String.eqb path "/missing"
       then ([], Some "no such file or directory")
       else (content path, None)
   | k8s_common.SecretsCreate _ _ _ _ => (None, None)
   | k8s_common.PodsGet _ _ _ name => (phase name, None)
   | k8s_common.Printf _ => tt
   end, S n).

(** The same cluster, where asking for pod [b] fails. *)
Definition b_unknown (q : k8s_common.Request) (s : unit) (n : nat) :
    k8s_common.Response q * nat :=
  match q return k8s_common.Response q * nat with
  | k8s_common.PodsGet _ _ _ name =>
      (if String.eqb name "b" then (EmptyString, Some "pods b not found")
       else ("Running", None), S n)
  | q' => serving all_running q' s n
  end.

Definition credentials : gmap string string := {[ "cloud" := "/etc/cloud" ]}.
Definition partly_broken : gmap string string :=
  <["z" := "/etc/z"]> (<["ca" := "/etc/ca"]> {[ "cloud" := "/missing" ]}).
End ClusterFixture.

(** ** Package [kube]: [PeriodicalEnqueueSource]

    [Start] hands a function to [wait.Until], which runs it every period
    on a goroutine of its own until the context is done, and returns nil
    at once.  What is modelled is that function: one round of listing and
    enqueueing.  The receiver's [objList] is the state; [List] of the embedded client fills it. *)

Module kube.
Section Source.
(** [context.Context]. *)
Variable context_Context : Type.

(** An item of the list, a [runtime.Object]: either it also is a
    [metav1.Object], with a namespace and a name, or it is not, and then
    only the text of its [GroupVersionKind] is used. *)
Inductive runtime_Object : Type :=
| IsMetaObject (namespace name : string)
| NotMetaObject (groupVersionKind : string).

(** [ctrl.Request], that is a [types.NamespacedName]. *)
Record ctrl_Request : Type := mkRequest {
  Namespace : string;
  Name : string
}.

(** The calls: the logger, the embedded client's [List], which answers
    with the items now in the list and an error, and the queue. *)
Inductive Request : Type :=
| logger_Debug (msg : string)
| logger_Debugf (format : string) (args : list string)
| logger_Error (args : list string)
| logger_WithError_Error (err : error) (msg : string)
| Client_List (ctx : context_Context)
| q_Add (item : ctrl_Request).

Definition Response (q : Request) : Type :=
  match q with
  | Client_List _ => (list runtime_Object * option error)%type
  | _ => unit
  end.

Definition M : Type -> Type := Prog (list runtime_Object) Response.

(** [meta.EachListItem(list, fn)]: [fn] on every item in order, stopping
    at the first error, which it returns. *)
Fixpoint EachListItem (items : list runtime_Object)
    (fn : runtime_Object -> M (option error)) : M (option error) :=
  match items with
  | [] => mret None
  | object :: items' =>
      err ← fn object;
      match err with
      | Some err => mret (Some err)
      | None => EachListItem items' fn
      end
  end.

(** The function [Start] passes to [EachListItem]. *)
Definition enqueue (object : runtime_Object) : M (option error) :=
  match object with
  | NotMetaObject groupVersionKind =>
      call (logger_Error ["%s's type isn't metav1.Object"; groupVersionKind]);;
      mret None
  | IsMetaObject namespace name =>
      call (q_Add (mkRequest namespace name));;
      call (logger_Debugf "resource %s/%s enqueued" [namespace; name]);;
      mret None
  end.

(** The function [Start] passes to [wait.Until]. *)
Definition Start_round (ctx : context_Context) : M unit :=
  call (logger_Debug "enqueueing resources ...");;
  '(items, err) ← call (Client_List ctx);
  store items;;
  match err with
  | Some err => call (logger_WithError_Error err "error listing resources")
  | None =>
      objList ← load;
      if Nat.eqb (length objList) 0
      then call (logger_Debug "no resources, skip")
      else
        err ← EachListItem objList enqueue;
        match err with
        | Some err => call (logger_WithError_Error err "error enqueueing resources")
        | None => mret tt
        end
  end.

(** The requests one round puts on the queue, and what a list asks to be
    put there. *)
Definition Add_calls (tr : list (Event (list runtime_Object) Request)) :
    list ctrl_Request :=
  flat_map (fun q => match q with q_Add item => [item] | _ => [] end) (calls_of tr).

Definition requests_of (items : list runtime_Object) : list ctrl_Request :=
  flat_map (fun object =>
              match object with
              | IsMetaObject namespace name => [mkRequest namespace name]
              | NotMetaObject _ => []
              end) items.

Definition count_Error (tr : list (Event (list runtime_Object) Request)) : nat :=
  length (List.filter (fun q => match q with logger_Error _ => true | _ => false end)
            (calls_of tr)).

Definition count_NotMetaObject (items : list runtime_Object) : nat :=
  length (List.filter (fun object =>
                         match object with NotMetaObject _ => true | _ => false end)
            items).
End Source.

Arguments Response {context_Context} q.
Arguments EachListItem {context_Context} items fn.
Arguments enqueue {context_Context} object.
Arguments Start_round {context_Context} ctx.
Arguments Add_calls {context_Context} tr.
Arguments count_Error {context_Context} tr.
Arguments logger_Debug {context_Context} msg.
Arguments logger_Debugf {context_Context} format args.
Arguments logger_Error {context_Context} args.
Arguments logger_WithError_Error {context_Context} err msg.
Arguments q_Add {context_Context} item.
Arguments Client_List {context_Context} ctx.
End kube.

(** ** Facts about runs *)

Section RunFacts.
Context {St Q W : Type} {Resp : Q -> Type}.
Variable h : forall q : Q, St -> W -> Resp q * W.

Lemma run_bind {A B : Type} (p : Prog St Resp A) (f : A -> Prog St Resp B) s w :
  run h (bind p f) s w =
  let o := run h p s w in
  let o' := run h (f (result o)) (final o) (world o) in
  mkOutcome (result o') (final o') (world o') (trace o ++ trace o').
Proof.
  revert s w; induction p as [x | k IH | s' k IH | q k IH]; intros s w; simpl.
  - destruct (run h (f x) s w); reflexivity.
  - apply IH.
  - rewrite IH; reflexivity.
  - rewrite IH; reflexivity.
Qed.

Lemma calls_of_app (t1 t2 : list (Event St Q)) :
  calls_of (t1 ++ t2) = calls_of t1 ++ calls_of t2.
Proof. unfold calls_of; apply flat_map_app. Qed.
End RunFacts.

(** ** The proxy: guard, store and forward *)

Section ProxyFacts.
Import clientmgmt.
Context `{Collaborators} {W : Type}.
Variable h : forall q : Request, restartableObjectStore -> W -> Response q * W.

(** Splits the answer of the next call the run is waiting for. *)
Ltac answer :=
  match goal with
  | |- context [h ?q ?r ?w] =>
      let a := fresh "a" in
      let w' := fresh "w" in
      let E := fresh "E" in
      destruct (h q r w) as [a w'] eqn:E; simpl in a; simpl
  end.

Lemma set_config_same (r : restartableObjectStore) :
  set_config r (config r) = r.
Proof. destruct r; reflexivity. Qed.

(** The constructor leaves a proxy for the key of kind
    [PluginKindObjectStoreV2] and the given name, without configuration,
    and registers it with the process under that key. *)
Lemma newRestartableObjectStoreV2_run (name : string) (p : RestartableProcess)
    (r0 : restartableObjectStore) (w : W) :
  let key := mkKindAndName PluginKindObjectStoreV2 name in
  let r := mkRestartableObjectStore key p None in
  run h (newRestartableObjectStoreV2 name p) r0 w =
    mkOutcome tt r (snd (h (addReinitializer p key) r w))
      [EvWrite r; EvCall (addReinitializer p key)].
Proof. simpl; destruct (h _ _ w) as [[] w']; reflexivity. Qed.

(** Once a map is stored, [Init] returns at its guard. *)
Lemma Init_guard (r : restartableObjectStore) (w : W) cfg m :
  config r = Some m ->
  run h (Init cfg) r w = mkOutcome (Some AlreadyInitializedError) r w [].
Proof. intros E; simpl; rewrite E; reflexivity. Qed.

(** A forwarding method never stores to the proxy. *)
Lemma method_final (m : objectstorev2.Method) (r : restartableObjectStore) (w : W) :
  objectstorev2.is_Init m = false ->
  final (run h (method m) r w) = r.
Proof.
  intros Hm; destruct m; try discriminate Hm; simpl;
    answer; (destruct a; simpl; [reflexivity |]);
    answer; destruct a as [[c | T] [e |]]; reflexivity.
Qed.

Lemma reinitialize_final (d : dispensed) (r : restartableObjectStore) (w : W) :
  final (run h (reinitialize d) r w) = r.
Proof. destruct d; reflexivity. Qed.

Lemma discard_final {A : Type} (p : M A) (r : restartableObjectStore) (w : W) :
  final (run h (p;; mret tt) r w) = final (run h p r w).
Proof. unfold mbind, Prog_bind; rewrite run_bind; reflexivity. Qed.

Lemma invoke_final (i : Invocation) (r : restartableObjectStore) (w : W) m :
  config r = Some m ->
  final (run h (invoke i) r w) = r.
Proof.
  intros E; destruct i as [mth | ctx cfg | d]; unfold invoke;
    rewrite discard_final.
  - destruct (objectstorev2.is_Init mth) eqn:Hm.
    + destruct mth as [cfg | | | | | | | | | | | | | |]; try discriminate Hm.
      exact (f_equal final (Init_guard r w cfg m E)).
    + apply method_final; assumption.
  - unfold InitV2; rewrite (Init_guard r w cfg m E); reflexivity.
  - apply reinitialize_final.
Qed.

Lemma invoke_all_final (l : list Invocation) (r : restartableObjectStore) (w : W) m :
  config r = Some m ->
  final (run h (invoke_all l) r w) = r.
Proof.
  intros E; revert w; induction l as [| i l IH]; intros w.
  - reflexivity.
  - cbn [invoke_all]; unfold mbind, Prog_bind; rewrite run_bind; simpl.
    rewrite (invoke_final i r w m E); apply IH.
Qed.

(** A successful [Init] with a non-nil map leaves that map stored. *)
Lemma Init_success_stores (r : restartableObjectStore) (w : W) m :
  result (run h (Init (Some m)) r w) = None ->
  config (final (run h (Init (Some m)) r w)) = Some m.
Proof.
  simpl; destruct (config r) eqn:E; simpl; [discriminate |].
  answer; destruct a as [[c | T] [e |]]; simpl; try discriminate; reflexivity.
Qed.

(** What [getObjectStore] and [getDelegate] return, by the answers of the
    process. *)
Lemma getObjectStore_run (r : restartableObjectStore) (w : W) :
  let q := getByKindAndName (sharedPluginProcess r) (key r) in
  run h getObjectStore r w =
  mkOutcome
    match snd (fst (h q r w)), fst (fst (h q r w)) with
    | Some err, _ => inr err
    | None, NotObjectStore T => inr (Errorf_not_ObjectStore T)
    | None, IsObjectStore objectStore => inl objectStore
    end
    r (snd (h q r w)) [EvCall q].
Proof.
  simpl; answer; destruct a as [[c | T] [e |]]; reflexivity.
Qed.

Lemma getDelegate_restart_failed (r : restartableObjectStore) (w : W) err :
  fst (h (resetIfNeeded (sharedPluginProcess r)) r w) = Some err ->
  run h getDelegate r w =
  mkOutcome (inr err) r (snd (h (resetIfNeeded (sharedPluginProcess r)) r w))
    [EvCall (resetIfNeeded (sharedPluginProcess r))].
Proof.
  simpl; answer; intros ->; reflexivity.
Qed.

Lemma getDelegate_live (r : restartableObjectStore) (w : W) :
  fst (h (resetIfNeeded (sharedPluginProcess r)) r w) = None ->
  let w1 := snd (h (resetIfNeeded (sharedPluginProcess r)) r w) in
  let o := run h getObjectStore r w1 in
  run h getDelegate r w =
  mkOutcome (result o) r (world o)
    (EvCall (resetIfNeeded (sharedPluginProcess r)) :: trace o).
Proof.
  simpl; answer; intros ->; simpl.
  answer; destruct a as [[c | T] [e |]]; reflexivity.
Qed.

(** How a forwarding method continues from what [getDelegate] returned. *)
Lemma method_run (m : objectstorev2.Method) (r : restartableObjectStore) (w : W) :
  objectstorev2.is_Init m = false ->
  let o := run h getDelegate r w in
  run h (method m) r w =
  match result o with
  | inr err => mkOutcome (zero_with m err) r (world o) (trace o)
  | inl delegate =>
      let aw := h (Invoke delegate m) r (world o) in
      mkOutcome (fst aw) r (snd aw) (trace o ++ [EvCall (Invoke delegate m)])
  end.
Proof.
  intros Hm; destruct m; try discriminate Hm; simpl;
    answer; (destruct a; simpl; [reflexivity |]);
    answer; destruct a as [[c | T] [e |]]; reflexivity.
Qed.

Lemma getDelegate_trace_no_Invoke (r : restartableObjectStore) (w : W) :
  no_Invoke (trace (run h getDelegate r w)) = true.
Proof.
  simpl; answer; (destruct a; simpl; [reflexivity |]).
  answer; destruct a as [[c | T] [e |]]; reflexivity.
Qed.

(** [Init] on a proxy without configuration, when the lookup dispenses
    an object store. *)
Lemma Init_store_forward (cfg : option (gmap string string))
    (r : restartableObjectStore) (w w1 : W) (delegate : ObjectStoreClient) :
  config r = None ->
  let q := getByKindAndName (sharedPluginProcess r) (key r) in
  h q r w = ((IsObjectStore delegate, None), w1) ->
  let q' := Invoke delegate (objectstorev2.Init cfg) in
  let r' := set_config r cfg in
  run h (Init cfg) r w =
    mkOutcome (fst (h q' r' w1)) r' (snd (h q' r' w1))
      [EvCall q; EvWrite r'; EvCall q'].
Proof.
  intros E q E1; subst q; simpl; rewrite E; simpl; rewrite E1; reflexivity.
Qed.

(** *** Properties of the proxy *)

(** X17.  Once an [Init], through either surface, has succeeded with a
    non-nil configuration [m], then after any further
    calls on the proxy every [Init], through either surface and with any
    configuration, returns the "already initialized" error, makes no call
    at all (so reaches no delegate), and leaves the proxy as it was, with
    [m] stored. *)
Theorem Init_rejected_once_configured (r : restartableObjectStore) (w : W)
    (m : gmap string string) (via1 via2 : Surface) (mid : list Invocation)
    (cfg2 : option (gmap string string)) :
  let o1 := run h (initialize via1 (Some m)) r w in
  result o1 = None ->
  let o2 := run h (invoke_all mid) (final o1) (world o1) in
  run h (initialize via2 cfg2) (final o2) (world o2) =
    mkOutcome (Some AlreadyInitializedError) (final o2) (world o2) []
  /\ config (final o2) = Some m.
Proof.
  intros o1 Hok o2.
  assert (E1 : config (final o1) = Some m).
  { subst o1; destruct via1; apply Init_success_stores; exact Hok. }
  assert (E2 : final o2 = final o1).
  { subst o2; apply invoke_all_final with (m := m); exact E1. }
  split.
  - destruct via2; apply Init_guard with (m := m); rewrite E2; exact E1.
  - rewrite E2; exact E1.
Qed.

(** C2, with or without a stored configuration.  [reinitialize] of a dispensed object store makes
    exactly one call, [Init] with the stored configuration on that object
    store, and returns its answer, whether a configuration was stored or
    not; it fails without a call only when the dispensed value is not an
    object store.  The proxy is left as it was. *)
Theorem C2_reinitialize_forwards_stored_config (r : restartableObjectStore) (w : W) :
  (forall objectStore : ObjectStoreClient,
     let q := Invoke objectStore (objectstorev2.Init (config r)) in
     run h (reinitialize (IsObjectStore objectStore)) r w =
       mkOutcome (fst (h q r w)) r (snd (h q r w)) [EvCall q])
  /\ (forall T : string,
     run h (reinitialize (NotObjectStore T)) r w =
       mkOutcome (Some (Errorf_not_ObjectStore T)) r w []).
Proof. split; intros; reflexivity. Qed.

(** C3.  A forwarding method always starts with [resetIfNeeded]; when
    that returns nil and the lookup under the proxy's key then dispenses
    an object store, the run consists of exactly these two calls followed
    by one call of the same method, with the same arguments, on that
    object store, whose answer is returned as it is.  The proxy is not
    modified. *)
Theorem C3_forwarding_method (m : objectstorev2.Method) (r : restartableObjectStore)
    (w : W) :
  objectstorev2.is_Init m = false ->
  let p := sharedPluginProcess r in
  let o := run h (method m) r w in
  hd_error (trace o) = Some (EvCall (resetIfNeeded p))
  /\ forall (delegate : ObjectStoreClient) (w1 w2 : W),
       h (resetIfNeeded p) r w = (None, w1) ->
       h (getByKindAndName p (key r)) r w1 = ((IsObjectStore delegate, None), w2) ->
       o = mkOutcome (fst (h (Invoke delegate m) r w2)) r
             (snd (h (Invoke delegate m) r w2))
             [EvCall (resetIfNeeded p); EvCall (getByKindAndName p (key r));
              EvCall (Invoke delegate m)].
Proof.
  intros Hm p o; subst o p; split.
  - destruct m; try discriminate Hm; reflexivity.
  - intros delegate w1 w2 E1 E2.
    destruct m; try discriminate Hm; simpl; rewrite E1; simpl; rewrite E2;
      reflexivity.
Qed.

(** C4.  When [getDelegate] fails, because [resetIfNeeded] returned an
    error, or the lookup did, or the dispensed value is not an object
    store, a forwarding method returns that error (with the zero value of
    its result type), makes no further call, and no call of the run
    reaches a delegate. *)
Theorem C4_failed_getDelegate_not_forwarded (m : objectstorev2.Method)
    (r : restartableObjectStore) (w : W) (err : error) :
  objectstorev2.is_Init m = false ->
  result (run h getDelegate r w) = inr err ->
  let o := run h (method m) r w in
  result o = zero_with m err
  /\ objectstorev2.error_of m (result o) = Some err
  /\ trace o = trace (run h getDelegate r w)
  /\ no_Invoke (trace o) = true
  /\ final o = r.
Proof.
  intros Hm Hd o; subst o.
  rewrite (method_run m r w Hm); cbv zeta; rewrite Hd; cbn [result trace final].
  repeat split.
  - destruct m; try discriminate Hm; reflexivity.
  - apply getDelegate_trace_no_Invoke.
Qed.

(** C5.  [InitV2 ctx config] is the program [Init config]: for every
    behaviour of the collaborators the two runs agree on the result, the
    proxy left behind (so the stored configuration), the world and the
    calls made, and the context plays no part. *)
Theorem C5_InitV2_is_Init (ctx : context_Context) (cfg : option (gmap string string))
    (r : restartableObjectStore) (w : W) :
  InitV2 ctx cfg = Init cfg
  /\ run h (InitV2 ctx cfg) r w = run h (Init cfg) r w
  /\ forall ctx' : context_Context,
       run h (InitV2 ctx cfg) r w = run h (InitV2 ctx' cfg) r w.
Proof. repeat split. Qed.

(** C6.  On a proxy with no stored configuration, [Init] never calls
    [resetIfNeeded]; its first call is [getByKindAndName] with the
    proxy's key; when that dispenses an object store, the proxy stores
    [config], so that the proxy then holds its key, its process and
    [config], and only then calls [Init config] on that object store,
    returning its answer. *)
Theorem C6_Init_does_not_restart (cfg : option (gmap string string))
    (r : restartableObjectStore) (w : W) :
  config r = None ->
  let q := getByKindAndName (sharedPluginProcess r) (key r) in
  let o := run h (Init cfg) r w in
  no_resetIfNeeded (trace o) = true
  /\ hd_error (trace o) = Some (EvCall q)
  /\ forall (delegate : ObjectStoreClient) (w1 : W),
       h q r w = ((IsObjectStore delegate, None), w1) ->
       let q' := Invoke delegate (objectstorev2.Init cfg) in
       let r' := mkRestartableObjectStore (key r) (sharedPluginProcess r) cfg in
       o = mkOutcome (fst (h q' r' w1)) r' (snd (h q' r' w1))
             [EvCall q; EvWrite r'; EvCall q']
       /\ config (final o) = cfg
       /\ key (final o) = key r
       /\ sharedPluginProcess (final o) = sharedPluginProcess r.
Proof.
  intros E q o; subst o q; simpl; rewrite E; simpl.
  split; [| split].
  - answer; destruct a as [[c | T] [e |]]; reflexivity.
  - reflexivity.
  - intros delegate w1 E1; rewrite E1; repeat split.
Qed.

(** C8.  The guard of [Init] looks at the stored configuration only.
    When [Init] with a nil configuration succeeds on a proxy that has
    none stored, the proxy is left exactly as it was, with no
    configuration stored; a later [Init] therefore passes the guard: it
    starts with the lookup, and it succeeds whenever the lookup dispenses
    an object store whose [Init] returns nil. *)
Theorem C8_nil_config_passes_guard (r : restartableObjectStore) (w : W) :
  config r = None ->
  let o1 := run h (Init None) r w in
  result o1 = None ->
  final o1 = r /\ config (final o1) = None
  /\ forall cfg2 : option (gmap string string),
       let q := getByKindAndName (sharedPluginProcess r) (key r) in
       let o2 := run h (Init cfg2) (final o1) (world o1) in
       hd_error (trace o2) = Some (EvCall q)
       /\ forall (delegate : ObjectStoreClient) (w2 : W),
            h q r (world o1) = ((IsObjectStore delegate, None), w2) ->
            fst (h (Invoke delegate (objectstorev2.Init cfg2)) (set_config r cfg2) w2)
              = None ->
            result o2 = None /\ config (final o2) = cfg2.
Proof.
  intros E o1 Hok.
  assert (F : final o1 = r).
  { subst o1; revert Hok; simpl; rewrite E; simpl.
    answer; destruct a as [[c | T] [e |]]; simpl; try discriminate.
    intros _; rewrite <- E; apply set_config_same. }
  split; [exact F |]. split; [rewrite F; exact E |].
  intros cfg2 q o2; subst o2 q; rewrite F; simpl; rewrite E; simpl. split.
  - reflexivity.
  - intros delegate w2 E1 E2; rewrite E1; simpl. split; [exact E2 | reflexivity].
Qed.

(** C9.  On a proxy with no stored configuration: when the lookup of
    [getObjectStore] fails, [Init] returns that error, reaches no
    delegate and leaves the proxy untouched, so a later [Init] passes the
    guard again.  When the lookup dispenses an object store and that
    object store's [Init] fails on a non-nil configuration [m], [Init]
    returns that error with [m] already stored, and from then on, after
    any further calls, every [Init] returns the "already initialized"
    error without making any call. *)
Theorem C9_Init_failure_not_atomic (r : restartableObjectStore) (w : W) :
  config r = None ->
  (forall (cfg : option (gmap string string)) (err : error),
     result (run h getObjectStore r w) = inr err ->
     let o := run h (Init cfg) r w in
     result o = Some err /\ final o = r /\ config (final o) = None
     /\ no_Invoke (trace o) = true)
  /\ (forall (m : gmap string string) (delegate : ObjectStoreClient) (w1 : W)
         (err : error),
     let q := getByKindAndName (sharedPluginProcess r) (key r) in
     h q r w = ((IsObjectStore delegate, None), w1) ->
     fst (h (Invoke delegate (objectstorev2.Init (Some m))) (set_config r (Some m)) w1)
       = Some err ->
     let o := run h (Init (Some m)) r w in
     result o = Some err /\ config (final o) = Some m
     /\ forall (mid : list Invocation) (via : Surface)
           (cfg2 : option (gmap string string)),
          let o2 := run h (invoke_all mid) (final o) (world o) in
          run h (initialize via cfg2) (final o2) (world o2) =
            mkOutcome (Some AlreadyInitializedError) (final o2) (world o2) []).
Proof.
  intros E; split.
  - intros cfg err; rewrite getObjectStore_run; cbv zeta; cbn [result].
    simpl; rewrite E; simpl.
    answer; destruct a as [[c | T] [e |]]; simpl; intros Hd;
      try discriminate Hd; injection Hd as <-; rewrite ?E; repeat split.
  - intros m delegate w1 err q E1 E2 o.
    assert (Ho : o = mkOutcome (Some err) (set_config r (Some m))
                  (snd (h (Invoke delegate (objectstorev2.Init (Some m)))
                          (set_config r (Some m)) w1))
                  [EvCall q; EvWrite (set_config r (Some m));
                   EvCall (Invoke delegate (objectstorev2.Init (Some m)))]).
    { subst o q; rewrite (Init_store_forward (Some m) r w w1 delegate E E1); cbv zeta.
      rewrite E2; reflexivity. }
    rewrite Ho; cbn [result final world].
    split; [reflexivity | split; [reflexivity |]].
    intros mid via cfg2.
    rewrite (invoke_all_final mid (set_config r (Some m)) _ m eq_refl).
    destruct via; apply Init_guard with (m := m); reflexivity.
Qed.
End ProxyFacts.

(** *** The proxy against a scripted process *)

Section ProxyExamples.
Import clientmgmt Fixture.

(** X17, witness: [Init] succeeds with [{"bucket": "b1"}]; after a
    [PutObject] and a rejected [Init], [InitV2] with another
    configuration is rejected and the first configuration stays. *)
Lemma Init_rejected_once_configured_witness :
  let h := scripted up in
  let mid := [OnMethod (objectstorev2.PutObject "b1" "k1" data);
              OnMethod (objectstorev2.Init b2)] in
  let o1 := run h (initialize Legacy (Some m1)) fresh 0 in
  result o1 = None
  /\ let o2 := run h (invoke_all mid) (final o1) (world o1) in
     run h (initialize (ContextAware background) b2) (final o2) (world o2) =
       mkOutcome (Some AlreadyInitializedError) (final o2) (world o2) []
     /\ config (final o2) = Some m1.
Proof.
  split; [reflexivity |].
  apply (Init_rejected_once_configured (scripted up) fresh 0 m1 Legacy (ContextAware background)
           [OnMethod (objectstorev2.PutObject "b1" "k1" data);
            OnMethod (objectstorev2.Init b2)] b2).
  reflexivity.
Defined.

(** C1, at the input where the code misses the one-shot it attempts: on
    a fresh proxy, against a healthy process, a first [Init] with a nil
    configuration succeeds and leaves nothing stored, so the guard lets a
    second [Init] through: it succeeds as well, is forwarded to the
    delegate, and stores its own configuration. *)
Lemma C1_Init_nil_then_Init_accepted :
  let h := scripted up in
  let o1 := run h (Init None) fresh 0 in
  let o2 := run h (Init b2) (final o1) (world o1) in
  result o1 = None
  /\ result o2 = None
  /\ result o2 <> Some AlreadyInitializedError
  /\ calls_of (trace o2) =
       [getByKindAndName process s3; Invoke plugin (objectstorev2.Init b2)]
  /\ config (final o1) = None
  /\ config (final o2) = b2.
Proof. repeat split; discriminate. Qed.

(** C2 does not hold where it requires a failure: on a proxy that never
    stored a configuration, [reinitialize] does not fail; it forwards
    [Init] with the nil configuration and returns the delegate's nil. *)
Lemma C2_counterexample :
  let o := run (scripted up) (reinitialize (IsObjectStore plugin)) fresh 0 in
  config fresh = None
  /\ result o = None
  /\ calls_of (trace o) = [Invoke plugin (objectstorev2.Init None)].
Proof. repeat split. Qed.

(** C3, witness: [GetObjectV2] on a live process. *)
Lemma C3_forwarding_method_witness :
  let m := objectstorev2.GetObjectV2 background "b1" "k1" in
  let o := run (scripted up) (method m) fresh 0 in
  objectstorev2.is_Init m = false
  /\ hd_error (trace o) = Some (EvCall (resetIfNeeded process))
  /\ o = mkOutcome (None, None) fresh 3
           [EvCall (resetIfNeeded process); EvCall (getByKindAndName process s3);
            EvCall (Invoke plugin m)].
Proof.
  split; [reflexivity |].
  destruct (C3_forwarding_method (scripted up)
              (objectstorev2.GetObjectV2 background "b1" "k1") fresh 0 eq_refl) as [Hd Hf].
  split; [exact Hd |].
  exact (Hf plugin 1 2 eq_refl eq_refl).
Defined.

(** C4, witness: [GetObject] when the restart fails, and when the
    dispensed value is not an object store. *)
Lemma C4_failed_getDelegate_not_forwarded_witness :
  let m := objectstorev2.GetObject "b1" "k1" in
  (result (run (scripted restart_fails) getDelegate fresh 0) = inr "launch failed"
   /\ let o := run (scripted restart_fails) (method m) fresh 0 in
      result o = zero_with m "launch failed"
      /\ objectstorev2.error_of m (result o) = Some "launch failed"
      /\ trace o = trace (run (scripted restart_fails) getDelegate fresh 0)
      /\ no_Invoke (trace o) = true
      /\ final o = fresh)
  /\ (result (run (scripted wrong_kind) getDelegate fresh 0)
        = inr "*snapshotter is not a ObjectStore!"
      /\ let o := run (scripted wrong_kind) (method m) fresh 0 in
         result o = zero_with m "*snapshotter is not a ObjectStore!"
         /\ objectstorev2.error_of m (result o)
              = Some "*snapshotter is not a ObjectStore!"
         /\ trace o = trace (run (scripted wrong_kind) getDelegate fresh 0)
         /\ no_Invoke (trace o) = true
         /\ final o = fresh).
Proof.
  split; (split; [reflexivity |]).
  - apply (C4_failed_getDelegate_not_forwarded (scripted restart_fails)
             (objectstorev2.GetObject "b1" "k1") fresh 0 "launch failed");
      reflexivity.
  - apply (C4_failed_getDelegate_not_forwarded (scripted wrong_kind)
             (objectstorev2.GetObject "b1" "k1") fresh 0
             "*snapshotter is not a ObjectStore!");
      reflexivity.
Defined.

(** C6, witness: the first [Init] on a fresh proxy. *)
Lemma C6_Init_does_not_restart_witness :
  let o := run (scripted up) (Init b1) fresh 0 in
  config fresh = None
  /\ no_resetIfNeeded (trace o) = true
  /\ hd_error (trace o) = Some (EvCall (getByKindAndName process s3))
  /\ o = mkOutcome None (mkRestartableObjectStore s3 process b1) 2
           [EvCall (getByKindAndName process s3);
            EvWrite (mkRestartableObjectStore s3 process b1);
            EvCall (Invoke plugin (objectstorev2.Init b1))]
  /\ config (final o) = b1
  /\ key (final o) = s3
  /\ sharedPluginProcess (final o) = process.
Proof.
  split; [reflexivity |].
  destruct (C6_Init_does_not_restart (scripted up) b1 fresh 0 eq_refl)
    as (Hr & Hd & Hf).
  split; [exact Hr |]. split; [exact Hd |].
  exact (Hf plugin 1 eq_refl).
Defined.

(** C8, witness: two successful [Init] calls in a row, the first with a
    nil configuration. *)
Lemma C8_nil_config_passes_guard_witness :
  let h := scripted up in
  let o1 := run h (Init None) fresh 0 in
  let o2 := run h (Init b2) (final o1) (world o1) in
  config fresh = None
  /\ result o1 = None
  /\ config (final o1) = None
  /\ hd_error (trace o2) = Some (EvCall (getByKindAndName process s3))
  /\ result o2 = None
  /\ config (final o2) = b2.
Proof.
  split; [reflexivity |]. split; [reflexivity |].
  destruct (C8_nil_config_passes_guard (scripted up) fresh 0 eq_refl eq_refl)
    as (_ & Hc & Hn).
  split; [exact Hc |].
  destruct (Hn b2) as [Hd Hs].
  split; [exact Hd |].
  exact (Hs plugin 3 eq_refl eq_refl).
Defined.

(** C9, witness: a failed lookup leaves the proxy retryable; a failed
    delegate [Init] does not. *)
Lemma C9_Init_failure_not_atomic_witness :
  (let o := run (scripted lookup_fails) (Init b1) fresh 0 in
   result o = Some "getByKindAndName error" /\ final o = fresh
   /\ config (final o) = None /\ no_Invoke (trace o) = true)
  /\ (let o := run (scripted init_fails) (Init (Some m1)) fresh 0 in
      result o = Some "Init error" /\ config (final o) = Some m1
      /\ forall (mid : list Invocation) (via : Surface)
            (cfg2 : option (gmap string string)),
           let o2 := run (scripted init_fails) (invoke_all mid) (final o) (world o) in
           run (scripted init_fails) (initialize via cfg2) (final o2) (world o2) =
             mkOutcome (Some AlreadyInitializedError) (final o2) (world o2) []).
Proof.
  split.
  - apply (proj1 (C9_Init_failure_not_atomic (scripted lookup_fails) fresh 0 eq_refl)
             b1 "getByKindAndName error" eq_refl).
  - apply (proj2 (C9_Init_failure_not_atomic (scripted init_fails) fresh 0 eq_refl)
             m1 plugin 1 "Init error" eq_refl eq_refl).
Defined.
End ProxyExamples.

(** ** The test client: initialized once, then shared *)

Section TestClientFacts.
Import k8s.
Context `{ClientPackage} {W : Type}.
Variable h : forall q : Request, Globals -> W -> Response q * W.

(** [InitTestClient] assigns to no package variable. *)
Lemma InitTestClient_final (g : Globals) (w : W) :
  final (run h InitTestClient g w) = g.
Proof.
  simpl.
  repeat match goal with
  | |- context [h ?q ?g ?w] =>
      let a := fresh "a" in
      destruct (h q g w) as [a ?]; simpl in a; simpl;
      try (destruct a as [? [? |]]; simpl; [reflexivity |])
  end; reflexivity.
Qed.

(** The first call: [InitTestClient] runs, its pair is assigned and
    returned, and [once] has fired. *)
Lemma NewTestClient_first (g : Globals) (w : W) :
  once g = false ->
  let first := run h InitTestClient g w in
  let g1 := mkGlobals false (fst (result first)) (snd (result first)) in
  let g2 := mkGlobals true (fst (result first)) (snd (result first)) in
  run h NewTestClient g w =
    mkOutcome (result first) g2 (world first)
      (trace first ++ [EvWrite g1; EvWrite g2]).
Proof.
  intros E first g1 g2.
  unfold NewTestClient, once_Do, mbind, mret, Prog_bind, Prog_ret, load, store.
  cbn [bind run]; rewrite E.
  rewrite !run_bind; cbv zeta.
  fold first.
  assert (F : final first = g) by apply InitTestClient_final.
  destruct first as [[tc e] gf wf tr] eqn:Ef; cbn [final] in F; subst gf.
  subst g1 g2; simpl; rewrite E, app_nil_r, <- app_assoc; reflexivity.
Qed.

(** Every call after [once] has fired returns the stored pair and does
    nothing else. *)
Lemma NewTestClient_fired (g : Globals) (w : W) :
  once g = true ->
  run h NewTestClient g w = mkOutcome (testClient g, err g) g w [].
Proof. intros E; simpl; rewrite E; reflexivity. Qed.

Lemma NewTestClient_times_fired (n : nat) (g : Globals) (w : W) :
  once g = true ->
  run h (NewTestClient_times n) g w =
    mkOutcome (repeat (testClient g, err g) n) g w [].
Proof.
  intros E; induction n as [| n IH]; [reflexivity |].
  cbn [NewTestClient_times]; unfold mbind, Prog_bind.
  rewrite run_bind, (NewTestClient_fired g w E); cbv zeta; cbn [result final world trace].
  rewrite run_bind, IH; reflexivity.
Qed.

(** C10.  From package variables whose [once] has not fired, any number
    of calls of [NewTestClient], one after the other, all return the pair
    that [InitTestClient] computes when run at the first call; the calls
    made on package [client] are those of that single run, so later calls
    neither run [InitTestClient] again nor retry a failed one; afterwards
    [once] has fired and the pair is stored. *)
Theorem C10_NewTestClient_once (n : nat) (g : Globals) (w : W) :
  once g = false ->
  let first := run h InitTestClient g w in
  let o := run h (NewTestClient_times (S n)) g w in
  result o = repeat (result first) (S n)
  /\ calls_of (trace o) = calls_of (trace first)
  /\ world o = world first
  /\ final o = mkGlobals true (fst (result first)) (snd (result first)).
Proof.
  intros E first o; subst o.
  cbn [NewTestClient_times]; unfold mbind, Prog_bind.
  rewrite run_bind, (NewTestClient_first g w E); cbv zeta;
    cbn [result final world trace].
  rewrite run_bind, NewTestClient_times_fired by reflexivity.
  fold first; cbn [result final world trace testClient err mret Prog_ret run].
  destruct (result first) as [tc e]; cbn [fst snd].
  repeat split.
  rewrite !calls_of_app; cbn [calls_of flat_map app]; rewrite !app_nil_r.
  reflexivity.
Qed.
End TestClientFacts.

Section TestClientExamples.
Import k8s Fixture.

(** C10, witness: three calls against a cluster that cannot be reached
    all return the error of the single attempt to load the
    configuration. *)
Lemma C10_NewTestClient_once_witness :
  let o := run no_cluster (NewTestClient_times 3) initial 0 in
  once initial = false
  /\ result o = repeat (zero_TestClient, Some "no kubeconfig") 3
  /\ calls_of (trace o) = [LoadConfig]
  /\ world o = 1
  /\ final o = mkGlobals true zero_TestClient (Some "no kubeconfig").
Proof.
  split; [reflexivity |].
  exact (C10_NewTestClient_once no_cluster 2 initial 0 eq_refl).
Defined.

(** Against a reachable cluster the clients built by the first call are
    the ones every call returns. *)
Example NewTestClient_shared :
  let o := run cluster (NewTestClient_times 2) initial 0 in
  result o = repeat (mkTestClient (Some 3) (Some 2) (Some 5), None) 2
  /\ calls_of (trace o) =
       [LoadConfig; NewFactory "e2e" tt; KubeClient tt; KubebuilderClient tt;
        DynamicClient tt; NewDynamicFactory (Some 4)].
Proof. split; reflexivity. Qed.
End TestClientExamples.

(** ** The proxy over any sequence of calls *)

Section ProxyInvariants.
Import clientmgmt ProxyCalls.
Context `{Collaborators} {W : Type}.
Variable h : forall q : Request, restartableObjectStore -> W -> Response q * W.

Ltac reply :=
  match goal with
  | |- context [h ?q ?r ?w] =>
      let a := fresh "a" in
      let w' := fresh "w" in
      let E := fresh "E" in
      destruct (h q r w) as [a w'] eqn:E; simpl in a; simpl
  end.

(** The run of [Init], by the state of the proxy and the outcome of the
    lookup. *)
Lemma Init_run (cfg : option (gmap string string)) (r : restartableObjectStore)
    (w : W) :
  let o := run h getObjectStore r w in
  run h (Init cfg) r w =
  match config r, result o with
  | Some _, _ => mkOutcome (Some AlreadyInitializedError) r w []
  | None, inr err => mkOutcome (Some err) r (world o) (trace o)
  | None, inl delegate =>
      let q := Invoke delegate (objectstorev2.Init cfg) in
      let r' := set_config r cfg in
      mkOutcome (fst (h q r' (world o))) r' (snd (h q r' (world o)))
        (trace o ++ [EvWrite r'; EvCall q])
  end.
Proof.
  simpl; destruct (config r); simpl; [reflexivity |].
  reply; destruct a as [[c | T] [e |]]; reflexivity.
Qed.

Lemma getObjectStore_calls (r : restartableObjectStore) (w : W) :
  calls_of (trace (run h getObjectStore r w)) =
    [getByKindAndName (sharedPluginProcess r) (key r)].
Proof. simpl; reply; destruct a as [[c | T] [e |]]; reflexivity. Qed.

Lemma getDelegate_calls (r : restartableObjectStore) (w : W) :
  let p := sharedPluginProcess r in
  calls_of (trace (run h getDelegate r w)) = [resetIfNeeded p]
  \/ calls_of (trace (run h getDelegate r w)) =
       [resetIfNeeded p; getByKindAndName p (key r)].
Proof.
  simpl; reply; (destruct a; simpl; [left; reflexivity |]).
  right; reply; destruct a as [[c | T] [e |]]; reflexivity.
Qed.

Lemma method_shape (m : objectstorev2.Method) (r : restartableObjectStore) (w : W) :
  shape r (calls_of (trace (run h (method m) r w))).
Proof.
  destruct (objectstorev2.is_Init m) eqn:Hm.
  - destruct m as [cfg | | | | | | | | | | | | | |]; try discriminate Hm.
    change (method (objectstorev2.Init cfg)) with (Init cfg).
    simpl; destruct (config r); simpl; [constructor |].
    reply; destruct a as [[c | T] [e |]]; simpl; constructor.
  - destruct m; try discriminate Hm; simpl;
      reply; (destruct a; simpl; [constructor |]);
      reply; destruct a as [[c | T] [e |]]; simpl; constructor.
Qed.

Lemma discard_trace {A : Type} (p : M A) (r : restartableObjectStore) (w : W) :
  trace (run h (p;; mret tt) r w) = trace (run h p r w).
Proof.
  unfold mbind, Prog_bind; rewrite run_bind; cbv zeta; cbn [trace run mret Prog_ret].
  apply app_nil_r.
Qed.

Lemma discard_world {A : Type} (p : M A) (r : restartableObjectStore) (w : W) :
  world (run h (p;; mret tt) r w) = world (run h p r w).
Proof. unfold mbind, Prog_bind; rewrite run_bind; reflexivity. Qed.

Lemma invoke_shape (i : Invocation) (r : restartableObjectStore) (w : W) :
  shape r (calls_of (trace (run h (invoke i) r w))).
Proof.
  destruct i as [m | ctx cfg | d]; unfold invoke; rewrite discard_trace.
  - apply method_shape.
  - exact (method_shape (objectstorev2.Init cfg) r w).
  - destruct d; simpl; constructor.
Qed.

(** An invocation changes at most the stored configuration. *)
Lemma invoke_identity (i : Invocation) (r : restartableObjectStore) (w : W) :
  let r' := final (run h (invoke i) r w) in
  key r' = key r /\ sharedPluginProcess r' = sharedPluginProcess r.
Proof.
  assert (HI : forall cfg,
    key (final (run h (Init cfg) r w)) = key r /\
    sharedPluginProcess (final (run h (Init cfg) r w)) = sharedPluginProcess r).
  { intros cfg; rewrite Init_run; cbv zeta.
    destruct (config r); [split; reflexivity |].
    destruct (result (run h getObjectStore r w)); split; reflexivity. }
  destruct i as [m | ctx cfg | d]; unfold invoke; cbv zeta; rewrite discard_final.
  - destruct (objectstorev2.is_Init m) eqn:Hm.
    + destruct m as [cfg | | | | | | | | | | | | | |]; try discriminate Hm.
      exact (HI cfg).
    + rewrite (method_final h m r w Hm); split; reflexivity.
  - exact (HI cfg).
  - rewrite reinitialize_final; split; reflexivity.
Qed.

Lemma addressed_by_same (r r' : restartableObjectStore) (q : Request) :
  key r' = key r -> sharedPluginProcess r' = sharedPluginProcess r ->
  addressed_by r q -> addressed_by r' q.
Proof. intros Hk Hp; destruct q; simpl; rewrite ?Hk, ?Hp; trivial. Qed.

Lemma shape_addressed (r : restartableObjectStore) (qs : list Request) :
  shape r qs -> Forall (addressed_by r) qs.
Proof. intros []; repeat constructor. Qed.

Lemma writes_app (t1 t2 : list (Event restartableObjectStore Request)) :
  writes (t1 ++ t2) = writes t1 ++ writes t2.
Proof. unfold writes; apply flat_map_app. Qed.

Lemma last_cons_default {A : Type} (ws : list A) (s d : A) :
  List.last (s :: ws) d = List.last ws s.
Proof.
  revert s d; induction ws as [| s' ws IH]; intros s d; [reflexivity |].
  change (List.last (s :: s' :: ws) d) with (List.last (s' :: ws) d).
  rewrite (IH s' d), (IH s' s); reflexivity.
Qed.

(** One invocation stores nothing, or it is an [Init] on a proxy without
    configuration and stores once: the proxy with that [Init]'s
    configuration. *)
Lemma invoke_writes (i : Invocation) (r : restartableObjectStore) (w : W) :
  let o := run h (invoke i) r w in
  (writes (trace o) = [] /\ final o = r)
  \/ (config r = None
      /\ exists cfg, init_config i = Some cfg
         /\ writes (trace o) = [final o]
         /\ final o = mkRestartableObjectStore (key r) (sharedPluginProcess r) cfg).
Proof.
  assert (HI : forall cfg,
    (writes (trace (run h (Init cfg) r w)) = [] /\ final (run h (Init cfg) r w) = r)
    \/ (config r = None
        /\ writes (trace (run h (Init cfg) r w)) = [final (run h (Init cfg) r w)]
        /\ final (run h (Init cfg) r w) =
             mkRestartableObjectStore (key r) (sharedPluginProcess r) cfg)).
  { intros cfg; simpl; destruct (config r) eqn:E; simpl; [left; split; reflexivity |].
    reply; destruct a as [[c | T] [e |]]; simpl; try (left; split; reflexivity).
    right; repeat split. }
  cbv zeta; destruct i as [m | ctx cfg | d]; unfold invoke;
    rewrite discard_trace, discard_final.
  - destruct (objectstorev2.is_Init m) eqn:Hm.
    + destruct m as [cfg | | | | | | | | | | | | | |]; try discriminate Hm.
      destruct (HI cfg) as [Hn | (E & Hw & Hf)]; [left; exact Hn |].
      right; split; [exact E |]. exists cfg; repeat split; assumption.
    + left; split; [| apply (method_final h m r w Hm)].
      destruct m; try discriminate Hm; simpl;
        reply; (destruct a; simpl; [reflexivity |]);
        reply; destruct a as [[c | T] [e |]]; reflexivity.
  - destruct (HI cfg) as [Hn | (E & Hw & Hf)]; [left; exact Hn |].
    right; split; [exact E |]. exists cfg; repeat split; assumption.
  - left; destruct d; split; reflexivity.
Qed.

(** X1.  Whatever calls are made on a proxy, in whatever order and
    whatever the process and the delegates answer: the proxy at the end
    is the last value stored to it, or the proxy as it was when nothing
    was stored; every store found no configuration stored and kept the
    key and the process; and the configuration of every store is the
    argument of an [Init] or [InitV2] among the calls.  So the key and
    the process never change, nothing is stored once a configuration is,
    and calls other than [Init] and [InitV2] ([reinitialize] and the
    forwarding methods) store nothing. *)
Theorem proxy_written_once (l : list Invocation) (r : restartableObjectStore) (w : W) :
  let o := run h (invoke_all l) r w in
  let ws := writes (trace o) in
  final o = List.last ws r
  /\ key (final o) = key r
  /\ sharedPluginProcess (final o) = sharedPluginProcess r
  /\ stored_while_empty r ws
  /\ Forall (fun s => exists i, In i l /\ init_config i = Some (config s)) ws
  /\ (config r <> None -> ws = [] /\ final o = r)
  /\ (Forall (fun i => init_config i = None) l -> ws = [] /\ final o = r).
Proof.
  cbv zeta.
  assert (Main :
    final (run h (invoke_all l) r w) = List.last (writes (trace (run h (invoke_all l) r w))) r
    /\ key (final (run h (invoke_all l) r w)) = key r
    /\ sharedPluginProcess (final (run h (invoke_all l) r w)) = sharedPluginProcess r
    /\ stored_while_empty r (writes (trace (run h (invoke_all l) r w)))
    /\ Forall (fun s => exists i, In i l /\ init_config i = Some (config s))
         (writes (trace (run h (invoke_all l) r w)))).
  { revert r w; induction l as [| i l IH]; intros r w.
    - simpl; repeat split; constructor.
    - cbn [invoke_all]; unfold mbind, Prog_bind; rewrite run_bind; cbv zeta;
        cbn [final trace]; rewrite writes_app.
      set (o1 := run h (invoke i) r w).
      destruct (IH (final o1) (world o1)) as (F & K & P & S & A).
      assert (A' : Forall (fun s => exists i0, In i0 (i :: l)
                                     /\ init_config i0 = Some (config s))
                     (writes (trace (run h (invoke_all l) (final o1) (world o1))))).
      { eapply List.Forall_impl; [| exact A].
        intros s (i0 & Hin & Hc); exists i0; split; [right; exact Hin | exact Hc]. }
      destruct (invoke_writes i r w) as [[Hw Hf] | (E & cfg & Hc & Hw & Hf)];
        fold o1 in Hw, Hf.
      + rewrite Hw; cbn [app]; rewrite Hf in F, K, P, S, A' |- *.
        repeat split; assumption.
      + rewrite Hw; cbn [app]; rewrite last_cons_default.
        assert (Hk : key (final o1) = key r) by (rewrite Hf; reflexivity).
        assert (Hp : sharedPluginProcess (final o1) = sharedPluginProcess r)
          by (rewrite Hf; reflexivity).
        split; [exact F |]. split; [rewrite K; exact Hk |].
        split; [rewrite P; exact Hp |].
        split; [cbn [stored_while_empty]; repeat split; assumption |].
        constructor; [| exact A'].
        exists i; split; [left; reflexivity |].
        rewrite Hc, Hf; reflexivity. }
  destruct Main as (F & K & P & S & A).
  repeat (split; [assumption |]); split.
  - intros Hc.
    destruct (writes (trace (run h (invoke_all l) r w))) as [| s ws] eqn:Ew.
    + split; [reflexivity | exact F].
    + destruct S as [E _]; contradiction.
  - intros Hn.
    destruct (writes (trace (run h (invoke_all l) r w))) as [| s ws] eqn:Ew.
    + split; [reflexivity | exact F].
    + apply Forall_inv in A; destruct A as (i & Hin & Hc).
      rewrite List.Forall_forall in Hn; rewrite (Hn i Hin) in Hc; discriminate.
Qed.

(** X2.  No call on the proxy is retried or fanned out: under every
    behaviour of the process and the delegate, one invocation makes at
    most three calls, in the order restart, lookup, delegate, and at most
    one of them reaches a delegate. *)
Theorem invocation_makes_at_most_three_calls (i : Invocation)
    (r : restartableObjectStore) (w : W) :
  let tr := trace (run h (invoke i) r w) in
  shape r (calls_of tr)
  /\ length (calls_of tr) <= 3
  /\ count_Invoke tr <= 1.
Proof.
  cbv zeta; unfold count_Invoke.
  pose proof (invoke_shape i r w) as S; split; [exact S |].
  destruct S; simpl; split; lia.
Qed.

(** X3.  Over any sequence of calls on a proxy, every restart request
    goes to the proxy's own process, every lookup to that process under
    the proxy's own key, and the proxy never registers itself again. *)
Theorem calls_addressed_to_own_process (l : list Invocation)
    (r : restartableObjectStore) (w : W) :
  Forall (addressed_by r) (calls_of (trace (run h (invoke_all l) r w))).
Proof.
  revert r w; induction l as [| i l IH]; intros r w; [constructor |].
  cbn [invoke_all]; unfold mbind, Prog_bind; rewrite run_bind; cbv zeta;
    cbn [trace]; rewrite calls_of_app; apply Forall_app; split.
  - apply shape_addressed, invoke_shape.
  - destruct (invoke_identity i r w) as [Hk Hp].
    eapply List.Forall_impl; [| apply IH].
    intros q; apply addressed_by_same; [symmetry; exact Hk | symmetry; exact Hp].
Qed.

(** X4.  A delegate is only ever called in the run that obtained it: if
    a forwarding method calls a delegate, that delegate is the one
    [getDelegate] returned in this very run and the call is the method
    itself with its arguments; if [Init] calls a delegate, no
    configuration was stored and the delegate is the one [getObjectStore]
    returned in this very run.  The proxy keeps no delegate between
    calls. *)
Theorem delegate_called_is_the_one_dispensed (m : objectstorev2.Method)
    (r : restartableObjectStore) (w : W) (delegate : ObjectStoreClient)
    (m' : objectstorev2.Method) :
  In (Invoke delegate m') (calls_of (trace (run h (method m) r w))) ->
  m' = m
  /\ if objectstorev2.is_Init m
     then config r = None /\ result (run h getObjectStore r w) = inl delegate
     else result (run h getDelegate r w) = inl delegate.
Proof.
  destruct (objectstorev2.is_Init m) eqn:Hm.
  - destruct m as [cfg | | | | | | | | | | | | | |]; try discriminate Hm.
    change (method (objectstorev2.Init cfg)) with (Init cfg).
    simpl; destruct (config r); simpl; [intros [] |].
    reply; destruct a as [[c | T] [e |]]; simpl;
      intros Hin; repeat (destruct Hin as [Hin | Hin]; try discriminate Hin);
      try contradiction.
    injection Hin as <- <-; repeat split.
  - destruct m; try discriminate Hm; simpl;
      reply; (destruct a; simpl;
        [intros Hin; repeat (destruct Hin as [Hin | Hin]; try discriminate Hin);
         contradiction |]);
      reply; destruct a as [[c | T] [e |]]; simpl;
      intros Hin; repeat (destruct Hin as [Hin | Hin]; try discriminate Hin);
      try contradiction; injection Hin as <-; intros; subst; repeat split.
Qed.

(** X5.  What a restart replays is what [Init] stored: when [Init] with
    a non-nil configuration [m] found an object store on a proxy without
    configuration, then, whether or not that object store accepted [m]
    and whatever calls follow, [reinitialize] of a freshly dispensed
    object store makes exactly one call, [Init m] on it, and returns its
    answer. *)
Theorem reinitialize_replays_Init_config (m : gmap string string)
    (r : restartableObjectStore) (w : W) (first fresh : ObjectStoreClient)
    (mid : list Invocation) :
  config r = None ->
  result (run h getObjectStore r w) = inl first ->
  let o1 := run h (Init (Some m)) r w in
  let o2 := run h (invoke_all mid) (final o1) (world o1) in
  let q := Invoke fresh (objectstorev2.Init (Some m)) in
  run h (reinitialize (IsObjectStore fresh)) (final o2) (world o2) =
    mkOutcome (fst (h q (final o2) (world o2))) (final o2)
      (snd (h q (final o2) (world o2))) [EvCall q].
Proof.
  intros E Hl o1 o2 q.
  assert (F1 : final o1 = set_config r (Some m)).
  { subst o1; rewrite Init_run; cbv zeta; rewrite E, Hl; reflexivity. }
  assert (F2 : final o2 = set_config r (Some m)).
  { subst o2; rewrite F1; apply invoke_all_final with (m := m); reflexivity. }
  subst q; rewrite F2; reflexivity.
Qed.

(** X6.  A proxy just constructed is registered once, under the key of
    kind [PluginKindObjectStoreV2] and its name, with the process it was
    given; its first [Init] is never rejected as already initialized, and
    looks up the plugin under that same key on that same process. *)
Theorem constructed_proxy_looks_up_registered_key (name : string)
    (p : RestartableProcess) (cfg : option (gmap string string))
    (r0 : restartableObjectStore) (w : W) :
  let k := mkKindAndName PluginKindObjectStoreV2 name in
  let o := run h (construct_then_Init name p cfg) r0 w in
  firstn 2 (calls_of (trace o)) = [addReinitializer p k; getByKindAndName p k]
  /\ count_occ_addReinitializer (calls_of (trace o)) = 1
  /\ key (final o) = k
  /\ sharedPluginProcess (final o) = p
  /\ (config (final o) = None \/ config (final o) = cfg).
Proof.
  cbv zeta; unfold construct_then_Init, mbind, Prog_bind.
  rewrite run_bind, (newRestartableObjectStoreV2_run h name p r0 w); cbv zeta;
    cbn [result final world trace].
  rewrite Init_run; cbv zeta; cbn [config].
  rewrite getObjectStore_run; cbv zeta; cbn [result world trace sharedPluginProcess key].
  set (k := mkKindAndName PluginKindObjectStoreV2 name).
  set (r := mkRestartableObjectStore k p None).
  destruct (h (getByKindAndName p k) r _) as [[[c | T] [e |]] w1]; simpl;
    repeat split; auto.
Qed.
End ProxyInvariants.

Section ProxyInvariantExamples.
Import clientmgmt ProxyCalls Fixture.

(** X4, witness: [GetObject] on a live process calls the delegate that
    was dispensed for it. *)
Lemma delegate_called_is_the_one_dispensed_witness :
  let m := objectstorev2.GetObject "b1" "k1" in
  In (Invoke plugin m) (calls_of (trace (run (scripted up) (method m) fresh 0)))
  /\ m = m
  /\ result (run (scripted up) getDelegate fresh 0) = inl plugin.
Proof.
  assert (Hin : In (Invoke plugin (objectstorev2.GetObject "b1" "k1"))
                  (calls_of (trace (run (scripted up)
                     (method (objectstorev2.GetObject "b1" "k1")) fresh 0)))).
  { simpl; auto. }
  split; [exact Hin |].
  exact (delegate_called_is_the_one_dispensed (scripted up)
           (objectstorev2.GetObject "b1" "k1") fresh 0 plugin
           (objectstorev2.GetObject "b1" "k1") Hin).
Defined.

(** X5, witness: the plugin rejects [{"bucket": "b1"}]; after a
    [PutObject], a restart still replays that configuration. *)
Lemma reinitialize_replays_Init_config_witness :
  let h := scripted init_fails in
  let o1 := run h (Init (Some m1)) fresh 0 in
  let o2 := run h (invoke_all [OnMethod (objectstorev2.PutObject "b1" "k1" data)])
              (final o1) (world o1) in
  result o1 = Some "Init error"
  /\ run h (reinitialize (IsObjectStore plugin)) (final o2) (world o2) =
       mkOutcome (Some "Init error") (final o2) 6
         [EvCall (Invoke plugin (objectstorev2.Init (Some m1)))].
Proof.
  split; [reflexivity |].
  exact (reinitialize_replays_Init_config (scripted init_fails) m1 fresh 0 plugin
           plugin [OnMethod (objectstorev2.PutObject "b1" "k1" data)]
           eq_refl eq_refl).
Defined.
End ProxyInvariantExamples.

(** ** [InitTestClient]: all or nothing *)

Section InitTestClientFacts.
Import k8s TestClientCalls.
Context `{ClientPackage} {W : Type}.
Variable h : forall q : Request, Globals -> W -> Response q * W.

(** X7.  [InitTestClient] stops at the first step that returns an
    error: when loading the configuration, or building the client-go, the
    controller-runtime or the dynamic client fails, in this order of
    precedence, its calls are the first 1, 3, 4 or 5 of the six steps, no
    call follows the failing one, and it returns the error of that very
    step with the zero [TestClient], never a partly filled one.  When all
    four succeed it makes the six steps, with the factory built from the
    loaded configuration under the name ["e2e"] serving the three
    clients, and returns, without error, the controller-runtime client as
    [Kubebuilder], the client-go client as [ClientGo] and the factory
    built from the dynamic client as [dynamicFactory].  It assigns no
    package variable. *)
Theorem InitTestClient_all_or_nothing (g : Globals) (w : W) :
  let a1 := h LoadConfig g w in
  let config := fst (fst a1) in
  let a2 := h (NewFactory "e2e" config) g (snd a1) in
  let f := fst a2 in
  let a3 := h (KubeClient f) g (snd a2) in
  let a4 := h (KubebuilderClient f) g (snd a3) in
  let a5 := h (DynamicClient f) g (snd a4) in
  let dynamicClient := fst (fst a5) in
  let a6 := h (NewDynamicFactory dynamicClient) g (snd a5) in
  let all := steps config f dynamicClient in
  let stopped (n : nat) (err : error) (w' : W) :=
    mkOutcome (zero_TestClient, Some err) g w' (map EvCall (firstn n all)) in
  run h InitTestClient g w =
    match snd (fst a1), snd (fst a3), snd (fst a4), snd (fst a5) with
    | Some err, _, _, _ => stopped 1 err (snd a1)
    | None, Some err, _, _ => stopped 3 err (snd a3)
    | None, None, Some err, _ => stopped 4 err (snd a4)
    | None, None, None, Some err => stopped 5 err (snd a5)
    | None, None, None, None =>
        mkOutcome (mkTestClient (fst (fst a4)) (fst (fst a3)) (fst a6), None)
          g (snd a6) (map EvCall all)
    end.
Proof.
  cbv zeta; simpl.
  destruct (h LoadConfig g w) as [[config [e |]] w1]; simpl; [reflexivity |].
  destruct (h (NewFactory "e2e" config) g w1) as [f w2]; simpl.
  destruct (h (KubeClient f) g w2) as [[cg [e |]] w3]; simpl; [reflexivity |].
  destruct (h (KubebuilderClient f) g w3) as [[kb [e |]] w4]; simpl; [reflexivity |].
  destruct (h (DynamicClient f) g w4) as [[dc [e |]] w5]; simpl; [reflexivity |].
  destruct (h (NewDynamicFactory dc) g w5) as [df w6]; reflexivity.
Qed.

Lemma InitTestClient_times_final (n : nat) (g : Globals) (w : W) :
  final (run h (InitTestClient_times n) g w) = g.
Proof.
  revert w; induction n as [| n IH]; intros w; [reflexivity |].
  cbn [InitTestClient_times]; unfold mbind, Prog_bind; rewrite run_bind; cbv zeta;
    cbn [final]; rewrite InitTestClient_final; apply IH.
Qed.

(** X8.  The pair [NewTestClient] hands out is fixed by its first call
    and by nothing else: after one call of [NewTestClient], however many
    direct calls of [InitTestClient] follow and whatever they return, the
    next [NewTestClient] returns the same pair as the first and makes no
    call. *)
Theorem NewTestClient_ignores_direct_InitTestClient (n : nat) (g : Globals) (w : W) :
  let o1 := run h NewTestClient g w in
  let o2 := run h (InitTestClient_times n) (final o1) (world o1) in
  let o3 := run h NewTestClient (final o2) (world o2) in
  result o3 = result o1 /\ trace o3 = [] /\ final o3 = final o1
  /\ world o3 = world o2.
Proof.
  intros o1 o2 o3.
  assert (Hfired : once (final o1) = true
                   /\ result o1 = (testClient (final o1), err (final o1))).
  { subst o1; destruct (once g) eqn:E.
    - rewrite (NewTestClient_fired h g w E); split; [exact E | reflexivity].
    - rewrite (NewTestClient_first h g w E); cbv zeta; cbn [final result].
      split; [reflexivity |].
      destruct (result (run h InitTestClient g w)); reflexivity. }
  destruct Hfired as [E1 R1].
  assert (F2 : final o2 = final o1) by apply InitTestClient_times_final.
  subst o3; rewrite F2, (NewTestClient_fired h (final o1) (world o2) E1).
  cbn [result trace final world]; rewrite R1; repeat split.
Qed.
End InitTestClientFacts.

(** ** [WaitForPods] and [CreateSecretFromFiles] *)

Section CommonFacts.
Import k8s_common CommonCalls.
Context `{ClientPackage} `{ClusterPackage} {W : Type}.
Variable h : forall q : Request, unit -> W -> Response q * W.

Lemma PodsGet_calls_app (t1 t2 : list (Event unit Request)) :
  PodsGet_calls (t1 ++ t2) = PodsGet_calls t1 ++ PodsGet_calls t2.
Proof. unfold PodsGet_calls; rewrite calls_of_app; apply List.filter_app. Qed.

(** One poll asks for no pod twice and for none beyond the list. *)
Lemma condition_bound ctx client namespace (pods : list string) (w : W) :
  length (PodsGet_calls (trace (run h (WaitForPods_condition ctx client namespace pods) tt w)))
    <= length pods.
Proof.
  revert w; induction pods as [| p pods IH]; intros w; simpl; [lia |].
  destruct (k8s.ClientGo client) as [c |]; simpl; [| lia].
  destruct (h (PodsGet c namespace ctx p) tt w) as [[phase [e |]] w1]; simpl; [lia |].
  destruct (String.eqb phase corev1_PodRunning); simpl.
  - specialize (IH w1); unfold PodsGet_calls in *; simpl; lia.
  - lia.
Qed.

(** X9.  However the cluster answers, [WaitForPods] asks the API server
    for a pod at most once per pod and poll: with [polls] further polls
    allowed by the clock, at most [(polls + 1) * length pods] times. *)
Theorem WaitForPods_bounded_requests (polls : nat) ctx client namespace
    (pods : list string) (w : W) :
  length (PodsGet_calls (trace (run h (WaitForPods polls ctx client namespace pods) tt w)))
    <= S polls * length pods.
Proof.
  unfold WaitForPods, mbind, Prog_bind; rewrite run_bind; cbv zeta.
  set (cond := WaitForPods_condition ctx client namespace pods).
  assert (B : forall w,
    length (PodsGet_calls (trace (run h (PollImmediate polls cond) tt w)))
      <= S polls * length pods).
  { clear w; induction polls as [| n IH]; intros w; cbn [PollImmediate];
      unfold mbind, Prog_bind; rewrite run_bind; cbv zeta; cbn [trace];
      rewrite PodsGet_calls_app, length_app;
      pose proof (condition_bound ctx client namespace pods w) as Hc;
      fold cond in Hc;
      destruct (run h cond tt w) as [[[[] [e |]] |] s1 w1 tr1];
      cbn [result final world trace] in *; destruct s1;
      try (cbn; lia).
    specialize (IH w1); lia. }
  cbn [trace]; rewrite PodsGet_calls_app, length_app.
  specialize (B w).
  destruct (run h (PollImmediate polls cond) tt w) as [[[e |] |] s1 w1 tr1];
    cbn [result final world trace] in *; cbn; lia.
Qed.

(** One poll of pods that are all running, and one that meets a pod in
    another phase after running ones, when the phase of a pod does not
    change. *)
Section SteadyPhases.
Variables (ctx : x_context_Context) (client : k8s.TestClient)
  (clientGo : kubernetes_Interface) (namespace : string) (phase : string -> string).
Hypothesis Hclient : k8s.ClientGo client = Some clientGo.
Hypothesis Hphase : forall (name : string) (w : W),
  fst (h (PodsGet clientGo namespace ctx name) tt w) = (phase name, None).

Let running (name : string) : Prop := phase name = corev1_PodRunning.
Let get (name : string) : Request := PodsGet clientGo namespace ctx name.

Lemma condition_all_running (pods : list string) (w : W) :
  Forall running pods ->
  let o := run h (WaitForPods_condition ctx client namespace pods) tt w in
  result o = Returned (true, None) /\ calls_of (trace o) = map get pods.
Proof using Hclient Hphase.
  intros Hall; revert w; induction Hall as [| p pods Hp Hall IH]; intros w;
    simpl; [split; reflexivity |].
  rewrite Hclient; simpl.
  pose proof (Hphase p w) as E.
  destruct (h (PodsGet clientGo namespace ctx p) tt w) as [a w1];
    cbn [fst] in E; subst a; simpl.
  unfold running in Hp; rewrite Hp, String.eqb_refl.
  destruct (IH w1) as [R C]; simpl; rewrite R; split; [reflexivity |].
  unfold get at 1; f_equal; exact C.
Qed.

Lemma condition_first_waiting (pre post : list string) (p : string) (w : W) :
  Forall running pre -> ~ running p ->
  let o := run h (WaitForPods_condition ctx client namespace (pre ++ p :: post)) tt w in
  result o = Returned (false, None)
  /\ PodsGet_calls (trace o) = map get (pre ++ [p]).
Proof using Hclient Hphase.
  intros Hall Hp; revert w; induction Hall as [| p0 pre Hp0 Hall IH]; intros w;
    simpl; rewrite Hclient; simpl.
  - pose proof (Hphase p w) as E.
    destruct (h (PodsGet clientGo namespace ctx p) tt w) as [a w1];
      cbn [fst] in E; subst a; simpl.
    apply String.eqb_neq in Hp; rewrite Hp; simpl; split; reflexivity.
  - pose proof (Hphase p0 w) as E.
    destruct (h (PodsGet clientGo namespace ctx p0) tt w) as [a w1];
      cbn [fst] in E; subst a; simpl.
    unfold running in Hp0; rewrite Hp0, String.eqb_refl.
    destruct (IH w1) as [R C]; simpl; rewrite R; split; [reflexivity |].
    unfold PodsGet_calls in *; simpl; unfold get at 1; f_equal; exact C.
Qed.

(** X10.  When every pod is in phase [PodRunning], [WaitForPods]
    returns nil after a single poll that asks for each pod once, in the
    order given; for an empty list it returns nil without any request. *)
Theorem WaitForPods_all_running (polls : nat) (pods : list string) (w : W) :
  Forall (fun name => phase name = corev1_PodRunning) pods ->
  let o := run h (WaitForPods polls ctx client namespace pods) tt w in
  result o = Returned None
  /\ calls_of (trace o) = map (PodsGet clientGo namespace ctx) pods.
Proof using Hclient Hphase.
  intros Hall; cbv zeta.
  destruct (condition_all_running pods w Hall) as [R C].
  unfold WaitForPods, mbind, Prog_bind; rewrite run_bind; cbv zeta.
  assert (P : run h (PollImmediate polls (WaitForPods_condition ctx client namespace pods)) tt w
              = mkOutcome (Returned None)
                  (final (run h (WaitForPods_condition ctx client namespace pods) tt w))
                  (world (run h (WaitForPods_condition ctx client namespace pods) tt w))
                  (trace (run h (WaitForPods_condition ctx client namespace pods) tt w) ++ [])).
  { destruct polls; cbn [PollImmediate]; unfold mbind, Prog_bind; rewrite run_bind;
      cbv zeta; rewrite R; reflexivity. }
  rewrite P; cbn [result final world trace run mret Prog_ret].
  rewrite !app_nil_r; split; [reflexivity | exact C].
Qed.

(** X11.  When the first pod not in phase [PodRunning] stays so,
    [WaitForPods] gives up with [wait.ErrWaitTimeout] wrapped in its own
    message after all the polls the clock allows; every poll stops at
    that pod, so the pods listed after it are never asked for. *)
Theorem WaitForPods_times_out (polls : nat) (pre post : list string) (p : string)
    (w : W) :
  Forall (fun name => phase name = corev1_PodRunning) pre ->
  phase p <> corev1_PodRunning ->
  let o := run h (WaitForPods polls ctx client namespace (pre ++ p :: post)) tt w in
  result o = Returned (Some (Wrapf wait_ErrWaitTimeout (waiting_for namespace)))
  /\ PodsGet_calls (trace o) =
       concat (repeat (map (PodsGet clientGo namespace ctx) (pre ++ [p])) (S polls)).
Proof using Hclient Hphase.
  intros Hall Hp; cbv zeta.
  set (cond := WaitForPods_condition ctx client namespace (pre ++ p :: post)).
  assert (P : forall w,
    result (run h (PollImmediate polls cond) tt w) = Returned (Some wait_ErrWaitTimeout)
    /\ PodsGet_calls (trace (run h (PollImmediate polls cond) tt w)) =
         concat (repeat (map get (pre ++ [p])) (S polls))).
  { clear w; induction polls as [| n IH]; intros w; cbn [PollImmediate];
      unfold mbind, Prog_bind; rewrite run_bind; cbv zeta;
      destruct (condition_first_waiting pre post p w Hall Hp) as [R C];
      fold cond in R, C; rewrite R; cbn [result trace];
      rewrite PodsGet_calls_app, C.
    - cbn; rewrite !app_nil_r; split; reflexivity.
    - destruct (IH (world (run h cond tt w))) as [R' C'].
      assert (Hf : final (run h cond tt w) = tt) by (destruct (final _); reflexivity).
      rewrite Hf, R', C'; split; reflexivity. }
  unfold WaitForPods, mbind, Prog_bind; rewrite run_bind; cbv zeta.
  destruct (P w) as [R C]; fold cond; rewrite R; cbn [result trace run mret Prog_ret].
  rewrite PodsGet_calls_app, C; cbn; rewrite app_nil_r; split; reflexivity.
Qed.
End SteadyPhases.

(** X12.  A failed [Get] ends the wait at once: when the pods before
    [p] are running and the request for [p] fails with [err], [WaitForPods]
    makes no call after that request, however many polls the clock would
    still allow, and returns [err] under the message of the condition and
    then that of [WaitForPods]. *)
Theorem WaitForPods_Get_error_not_retried (polls : nat) ctx client clientGo
    namespace (pre post : list string) (p : string) (err : error) (w : W) :
  k8s.ClientGo client = Some clientGo ->
  (forall (name : string) (w : W), In name pre ->
     fst (h (PodsGet clientGo namespace ctx name) tt w) = (corev1_PodRunning, None)) ->
  (forall w : W, snd (fst (h (PodsGet clientGo namespace ctx p) tt w)) = Some err) ->
  let o := run h (WaitForPods polls ctx client namespace (pre ++ p :: post)) tt w in
  result o = Returned (Some (Wrapf (WithMessage err (verifying namespace p))
                               (waiting_for namespace)))
  /\ calls_of (trace o) = map (PodsGet clientGo namespace ctx) (pre ++ [p]).
Proof.
  intros Hclient Hpre Hp; cbv zeta.
  set (cond := WaitForPods_condition ctx client namespace (pre ++ p :: post)).
  assert (C : forall w,
    result (run h cond tt w) =
      Returned (false, Some (WithMessage err (verifying namespace p)))
    /\ calls_of (trace (run h cond tt w)) =
         map (PodsGet clientGo namespace ctx) (pre ++ [p])).
  { clear w; subst cond; induction pre as [| p0 pre IH]; intros w; simpl;
      rewrite Hclient; simpl.
    - pose proof (Hp w) as E.
      destruct (h (PodsGet clientGo namespace ctx p) tt w) as [[ph e] w1];
        cbn [fst snd] in E; subst e; simpl; split; reflexivity.
    - pose proof (Hpre p0 w (or_introl eq_refl)) as E.
      destruct (h (PodsGet clientGo namespace ctx p0) tt w) as [a w1];
        cbn [fst] in E; subst a; simpl.
      rewrite String.eqb_refl.
      destruct (IH (fun n w Hin => Hpre n w (or_intror Hin)) w1) as [R Cs].
      simpl; rewrite R; split; [reflexivity | f_equal; exact Cs]. }
  unfold WaitForPods, mbind, Prog_bind; rewrite run_bind; cbv zeta.
  assert (P : run h (PollImmediate polls cond) tt w
              = mkOutcome (Returned (Some (WithMessage err (verifying namespace p))))
                  (final (run h cond tt w)) (world (run h cond tt w))
                  (trace (run h cond tt w) ++ [])).
  { destruct (C w) as [R _].
    destruct polls; cbn [PollImmediate]; unfold mbind, Prog_bind; rewrite run_bind;
      cbv zeta; rewrite R; reflexivity. }
  fold cond; rewrite P; cbn [result final world trace run mret Prog_ret].
  rewrite !app_nil_r; split; [reflexivity | apply C].
Qed.

(** X13.  With a nil [ClientGo], [WaitForPods] panics exactly when
    there is a pod to ask for, and does so before any call; with no pod
    to wait for it returns nil. *)
Theorem WaitForPods_nil_client (polls : nat) ctx client namespace
    (pods : list string) (w : W) :
  k8s.ClientGo client = None ->
  let o := run h (WaitForPods polls ctx client namespace pods) tt w in
  trace o = []
  /\ result o = match pods with [] => Returned None | _ :: _ => Panicked end.
Proof.
  intros Hclient; cbv zeta.
  unfold WaitForPods; destruct pods as [| p pods]; destruct polls;
    cbn; rewrite ?Hclient; cbn; split; reflexivity.
Qed.
End CommonFacts.

(** ** [CreateSecretFromFiles] *)

Section SecretFacts.
Import k8s_common CommonCalls.
Context `{ClientPackage} `{ClusterPackage} {W : Type}.
Variable h : forall q : Request, unit -> W -> Response q * W.

(** Inserting the contents of the visited files one after the other
    gives the map of the files to their contents, whatever the order. *)
Lemma foldl_insert_contents (content : string -> list Byte.byte)
    (visit : list (string * string)) (data : gmap string (list Byte.byte)) :
  NoDup (visit.*1) ->
  foldl (fun d kp => <[kp.1 := content kp.2]> d) data visit =
    (content <$> (list_to_map visit : gmap string string)) ∪ data.
Proof.
  revert data; induction visit as [| [k p] visit IH]; intros data Hnd; simpl.
  - rewrite fmap_empty, (left_id_L ∅ (∪)); reflexivity.
  - apply NoDup_cons in Hnd as [Hk Hnd].
    rewrite IH by exact Hnd.
    rewrite fmap_insert, <- insert_union_l.
    symmetry; apply insert_union_r.
    rewrite lookup_fmap, (not_elem_of_list_to_map_1 _ _ Hk); reflexivity.
Qed.

Lemma readFiles_all_read (content : string -> list Byte.byte)
    (visit : list (string * string)) (data : gmap string (list Byte.byte)) (w : W) :
  (forall k p (w' : W), In (k, p) visit ->
     fst (h (ReadFile p) tt w') = (content p, None)) ->
  let o := run h (readFiles visit data) tt w in
  result o = inl (foldl (fun d kp => <[kp.1 := content kp.2]> d) data visit)
  /\ calls_of (trace o) = map (fun kp => ReadFile kp.2) visit.
Proof.
  revert data w; induction visit as [| [k p] visit IH]; intros data w Hread; simpl.
  - split; reflexivity.
  - pose proof (Hread k p w (or_introl eq_refl)) as E.
    destruct (h (ReadFile p) tt w) as [a w1]; cbn [fst] in E; subst a; simpl.
    destruct (IH (<[k := content p]> data) w1
                (fun k' p' w' Hin => Hread k' p' w' (or_intror Hin))) as [R C].
    split; [exact R | f_equal; exact C].
Qed.

Lemma readFiles_first_failure (pre post : list (string * string))
    (key bad : string) (err : error) (data : gmap string (list Byte.byte)) (w : W) :
  (forall k p (w' : W), In (k, p) pre -> snd (fst (h (ReadFile p) tt w')) = None) ->
  (forall w' : W, snd (fst (h (ReadFile bad) tt w')) = Some err) ->
  let o := run h (readFiles (pre ++ (key, bad) :: post) data) tt w in
  result o = inr (WithMessage err
               (String.append "Failed to read secret file " (strconv_Quote bad)))
  /\ calls_of (trace o) = map (fun kp => ReadFile kp.2) (pre ++ [(key, bad)]).
Proof.
  intros Hpre Hbad; revert data w;
    induction pre as [| [k p] pre IH]; intros data w; simpl.
  - pose proof (Hbad w) as E.
    destruct (h (ReadFile bad) tt w) as [[contents e] w1]; cbn [fst snd] in E;
      subst e; simpl; split; reflexivity.
  - pose proof (Hpre k p w (or_introl eq_refl)) as E.
    destruct (h (ReadFile p) tt w) as [[contents e] w1]; cbn [fst snd] in E;
      subst e; simpl.
    destruct (IH (fun k' p' w' Hin => Hpre k' p' w' (or_intror Hin))
                (<[k := contents]> data) w1) as [R C].
    split; [exact R | f_equal; exact C].
Qed.

Lemma visit_of_range (files : gmap string string) (visit : list (string * string)) :
  visit ≡ₚ map_to_list files ->
  NoDup (visit.*1) /\ (list_to_map visit : gmap string string) = files
  /\ forall k p, In (k, p) visit <-> files !! k = Some p.
Proof.
  intros Hp.
  assert (Hnd : NoDup (visit.*1)).
  { rewrite Hp; apply NoDup_fst_map_to_list. }
  split; [exact Hnd |]. split.
  - rewrite (list_to_map_proper _ _ Hnd Hp); apply list_to_map_to_list.
  - intros k p; rewrite <- list_elem_of_In, Hp; apply elem_of_map_to_list.
Qed.

(** X14.  When every file named in [files] can be read, and [range]
    visits each entry of [files] once in whatever order, every file is
    read once and then, with a non-nil [ClientGo], exactly one secret is
    created: the one built from the namespace, the name and the map that
    sends each key of [files] to the contents of its file; the error of
    that request is what [CreateSecretFromFiles] returns.  With a nil
    [ClientGo] the files are read all the same and the call then
    panics. *)
Theorem CreateSecretFromFiles_creates_secret_of_contents
    (ctx : x_context_Context) (client : k8s.TestClient) (namespace name : string)
    (files : gmap string string) (content : string -> list Byte.byte) (w : W) :
  fst (h (MapRange files) tt w) ≡ₚ map_to_list files ->
  (forall k p (w' : W), files !! k = Some p ->
     fst (h (ReadFile p) tt w') = (content p, None)) ->
  let visit := fst (h (MapRange files) tt w) in
  let reads := MapRange files :: map (fun kp => ReadFile kp.2) visit in
  let secret := builder_ForSecret_Data_Result namespace name (content <$> files) in
  let o := run h (CreateSecretFromFiles ctx client namespace name files) tt w in
  match k8s.ClientGo client with
  | None => result o = Panicked /\ calls_of (trace o) = reads
  | Some clientGo =>
      calls_of (trace o) = reads ++ [SecretsCreate clientGo namespace ctx secret]
      /\ exists w' : W,
           result o =
             Returned (snd (fst (h (SecretsCreate clientGo namespace ctx secret) tt w')))
  end.
Proof.
  intros Hrange Hread; cbv zeta.
  destruct (visit_of_range _ _ Hrange) as (Hnd & Hmap & Hin).
  unfold CreateSecretFromFiles, mbind, Prog_bind, call.
  cbn [bind run]; unfold logged; cbn [result final world trace].
  set (visit := fst (h (MapRange files) tt w)) in *.
  set (w0 := snd (h (MapRange files) tt w)).
  rewrite run_bind; cbv zeta.
  destruct (readFiles_all_read content visit ∅ w0
              (fun k p w' Hi => Hread k p w' (proj1 (Hin k p) Hi))) as [R C].
  rewrite R, (foldl_insert_contents content visit ∅ Hnd), Hmap,
    (right_id_L ∅ (∪)).
  cbn [calls_of flat_map app].
  destruct (k8s.ClientGo client) as [clientGo |]; cbn [run mret Prog_ret bind].
  - set (secret := builder_ForSecret_Data_Result namespace name (content <$> files)).
    set (w1 := world (run h (readFiles visit ∅) tt w0)).
    assert (Hf : final (run h (readFiles visit ∅) tt w0) = tt)
      by (destruct (final _); reflexivity).
    rewrite Hf; unfold logged; cbn [result final world trace].
    destruct (h (SecretsCreate clientGo namespace ctx secret) tt w1) as [[s e] w2] eqn:E.
    cbn [fst snd run result trace]; split.
    + f_equal; unfold calls_of in C |- *; rewrite flat_map_app, C; reflexivity.
    + exists w1; rewrite E; reflexivity.
  - cbn [result trace]; split; [reflexivity |].
    f_equal; unfold calls_of in C |- *; rewrite app_nil_r, C; reflexivity.
Qed.

(** X15.  When [range] visits the entries [pre] of [files], whose files
    can be read, and then an entry whose file [bad] cannot, the read
    failing with [err], [CreateSecretFromFiles] stops there: it reads the
    files of [pre] and [bad] and makes no other call, so it reads no
    file visited later, creates no secret and does not panic even with a
    nil [ClientGo]; and it returns [err] under the message that quotes
    the path [bad]. *)
Theorem CreateSecretFromFiles_unreadable_file
    (ctx : x_context_Context) (client : k8s.TestClient) (namespace name : string)
    (files : gmap string string) (pre post : list (string * string))
    (key bad : string) (err : error) (w : W) :
  fst (h (MapRange files) tt w) = pre ++ (key, bad) :: post ->
  (forall k p (w' : W), In (k, p) pre -> snd (fst (h (ReadFile p) tt w')) = None) ->
  (forall w' : W, snd (fst (h (ReadFile bad) tt w')) = Some err) ->
  let o := run h (CreateSecretFromFiles ctx client namespace name files) tt w in
  result o = Returned (Some (WithMessage err
               (String.append "Failed to read secret file " (strconv_Quote bad))))
  /\ calls_of (trace o) =
       MapRange files :: map (fun kp => ReadFile kp.2) (pre ++ [(key, bad)])
  /\ SecretsCreate_calls (trace o) = [].
Proof.
  intros Hrange Hpre Hbad; cbv zeta.
  assert (Hcalls : forall qs,
    List.filter is_SecretsCreate (map (fun kp : string * string => ReadFile kp.2) qs) = []).
  { induction qs as [| kp qs IH]; [reflexivity | exact IH]. }
  unfold SecretsCreate_calls, CreateSecretFromFiles, mbind, Prog_bind, call.
  cbn [bind run]; unfold logged; cbn [result final world trace].
  rewrite Hrange.
  set (w0 := snd (h (MapRange files) tt w)).
  rewrite run_bind; cbv zeta.
  destruct (readFiles_first_failure pre post key bad err ∅ w0 Hpre Hbad) as [R C].
  rewrite R; cbn [run mret Prog_ret result trace].
  rewrite app_nil_r.
  change (calls_of (EvCall (MapRange files)
                    :: trace (run h (readFiles (pre ++ (key, bad) :: post) ∅) tt w0)))
    with (MapRange files
          :: calls_of (trace (run h (readFiles (pre ++ (key, bad) :: post) ∅) tt w0))).
  rewrite C; cbn [List.filter is_SecretsCreate]; rewrite Hcalls.
  repeat split.
Qed.
End SecretFacts.

Section CommonExamples.
Import k8s_common CommonCalls Fixture ClusterFixture.

(** X10, witness: two running pods. *)
Lemma WaitForPods_all_running_witness :
  let o := run (serving all_running) (WaitForPods 120 todo connected "velero" ["a"; "b"]) tt 0 in
  result o = Returned None
  /\ calls_of (trace o) = map (PodsGet api "velero" todo) ["a"; "b"].
Proof.
  apply (WaitForPods_all_running (serving all_running) todo connected api "velero"
           all_running eq_refl (fun _ _ => eq_refl) 120 ["a"; "b"] 0).
  repeat constructor.
Defined.

(** X11, witness: pod [b] stays pending; with two further polls allowed
    there are three polls, none of which asks for [c]. *)
Lemma WaitForPods_times_out_witness :
  let o := run (serving b_pending) (WaitForPods 2 todo connected "velero" ["a"; "b"; "c"]) tt 0 in
  result o = Returned (Some (Wrapf wait_ErrWaitTimeout (waiting_for "velero")))
  /\ PodsGet_calls (trace o) =
       concat (repeat (map (PodsGet api "velero" todo) ["a"; "b"]) 3).
Proof.
  apply (WaitForPods_times_out (serving b_pending) todo connected api "velero"
           b_pending eq_refl (fun _ _ => eq_refl) 2 ["a"] ["c"] "b" 0).
  - repeat constructor.
  - discriminate.
Defined.

(** X12, witness: asking for pod [b] fails. *)
Lemma WaitForPods_Get_error_not_retried_witness :
  let o := run b_unknown (WaitForPods 120 todo connected "velero" ["a"; "b"; "c"]) tt 0 in
  result o = Returned (Some (Wrapf (WithMessage "pods b not found" (verifying "velero" "b"))
                               (waiting_for "velero")))
  /\ calls_of (trace o) = map (PodsGet api "velero" todo) ["a"; "b"].
Proof.
  apply (WaitForPods_Get_error_not_retried b_unknown 120 todo connected api "velero"
           ["a"] ["c"] "b" "pods b not found" 0 eq_refl).
  - intros name w [<- | []]; reflexivity.
  - intros w; reflexivity.
Defined.

(** X13, witness: a client that was never connected. *)
Lemma WaitForPods_nil_client_witness :
  let o := run (serving all_running) (WaitForPods 120 todo unconnected "velero" ["a"]) tt 0 in
  trace o = [] /\ result o = Panicked.
Proof.
  exact (WaitForPods_nil_client (serving all_running) 120 todo unconnected "velero"
           ["a"] 0 eq_refl).
Defined.

(** X14, witness: one readable credentials file. *)
Lemma CreateSecretFromFiles_creates_secret_of_contents_witness :
  let secret := builder_ForSecret_Data_Result "velero" "cloud-credentials"
                  (content <$> credentials) in
  let o := run (serving all_running)
             (CreateSecretFromFiles todo connected "velero" "cloud-credentials" credentials)
             tt 0 in
  calls_of (trace o) =
    (MapRange credentials
     :: map (fun kp => ReadFile kp.2) (map_to_list credentials))
    ++ [SecretsCreate api "velero" todo secret]
  /\ exists w' : nat,
       result o =
         Returned (snd (fst (serving all_running
                               (SecretsCreate api "velero" todo secret) tt w'))).
Proof.
  apply (CreateSecretFromFiles_creates_secret_of_contents (serving all_running)
           todo connected "velero" "cloud-credentials" credentials content 0).
  - reflexivity.
  - intros k p w' Hk.
    unfold credentials in Hk.
    apply lookup_singleton_Some in Hk as [_ <-]; reflexivity.
Defined.

(** X15, witness: of three files the second visited is missing, and the
    client is not even connected; the third is never read. *)
Lemma CreateSecretFromFiles_unreadable_file_witness :
  let o := run (serving all_running)
             (CreateSecretFromFiles todo unconnected "velero" "cloud-credentials"
                partly_broken)
             tt 0 in
  result o = Returned (Some (WithMessage "no such file or directory"
               (String.append "Failed to read secret file " (strconv_Quote "/missing"))))
  /\ calls_of (trace o) =
       [MapRange partly_broken; ReadFile "/etc/ca"; ReadFile "/missing"]
  /\ SecretsCreate_calls (trace o) = [].
Proof.
  apply (CreateSecretFromFiles_unreadable_file (serving all_running)
           todo unconnected "velero" "cloud-credentials" partly_broken
           [("ca", "/etc/ca")] [("z", "/etc/z")] "cloud" "/missing"
           "no such file or directory" 0).
  - vm_compute; reflexivity.
  - intros k p w' [Heq | []]; injection Heq as <- <-; reflexivity.
  - intros w'; reflexivity.
Defined.
End CommonExamples.

(** ** [PeriodicalEnqueueSource]: one round *)

Section EnqueueFacts.
Import kube.
Context {context_Context W : Type}.
Variable h : forall q : Request context_Context,
  list runtime_Object -> W -> Response q * W.

Lemma Add_calls_app (t1 t2 : list (Event (list runtime_Object) (Request context_Context))) :
  Add_calls (t1 ++ t2) = Add_calls t1 ++ Add_calls t2.
Proof. unfold Add_calls; rewrite calls_of_app; apply flat_map_app. Qed.

(** Enqueueing never fails, so no item stops the iteration. *)
Lemma EachListItem_enqueue (items : list runtime_Object) (s : list runtime_Object)
    (w : W) :
  let o := run h (EachListItem items enqueue) s w in
  result o = None /\ final o = s
  /\ Add_calls (trace o) = requests_of items
  /\ count_Error (trace o) = count_NotMetaObject items.
Proof.
  revert w; induction items as [| [ns n | gvk] items IH]; intros w; simpl.
  - repeat split.
  - destruct (h (q_Add (mkRequest ns n)) s w) as [[] w1]; simpl.
    destruct (h (logger_Debugf "resource %s/%s enqueued" [ns; n]) s w1) as [[] w2]; simpl.
    destruct (IH w2) as (R & F & A & E); repeat split; auto.
    unfold Add_calls in *; simpl; f_equal; exact A.
  - destruct (h (logger_Error ["%s's type isn't metav1.Object"; gvk]) s w) as [[] w1];
      simpl.
    destruct (IH w1) as (R & F & A & E); repeat split; auto.
    unfold count_Error, count_NotMetaObject in *; simpl; f_equal; exact E.
Qed.

(** X16.  One round of the source puts on the queue exactly the
    namespace and name of every listed item that is a [metav1.Object], in
    the order of the list, once each; an item that is not one is reported
    to the logger and skipped without ending the round; and when [List]
    fails nothing is put on the queue, whatever the list then holds. *)
Theorem Start_round_enqueues_listed_objects (ctx : context_Context)
    (objList : list runtime_Object) (w : W) :
  let w1 := snd (h (logger_Debug "enqueueing resources ...") objList w) in
  let listed := fst (h (Client_List ctx) objList w1) in
  let o := run h (Start_round ctx) objList w in
  final o = fst listed
  /\ match snd listed with
     | Some _ => Add_calls (trace o) = [] /\ count_Error (trace o) = 0
     | None =>
         Add_calls (trace o) = requests_of (fst listed)
         /\ count_Error (trace o) = count_NotMetaObject (fst listed)
     end.
Proof.
  cbv zeta; unfold Start_round, mbind, Prog_bind, call, store, load.
  cbn [bind run]; unfold logged; cbn [result final world trace fst snd].
  destruct (h (logger_Debug "enqueueing resources ...") objList w) as [[] w1];
    cbn [fst snd].
  destruct (h (Client_List ctx) objList w1) as [[items [e |]] w2]; cbn [fst snd bind run];
    unfold logged; cbn [result final world trace].
  - destruct (h (logger_WithError_Error e "error listing resources") items w2)
      as [[] w3]; cbn; repeat split.
  - destruct items as [| object items]; cbn [length Nat.eqb].
    + cbn [bind run]; unfold logged.
      destruct (h (logger_Debug "no resources, skip") [] w2) as [[] w3]; cbn;
        repeat split.
    + rewrite run_bind; cbv zeta.
      destruct (EachListItem_enqueue (object :: items) (object :: items) w2)
        as (R & F & A & E).
      rewrite R; cbn [run mret Prog_ret result final world trace].
      rewrite F, app_nil_r; split; [reflexivity |].
      unfold Add_calls, count_Error, calls_of in *; cbn [flat_map app List.filter length].
      split; [exact A | exact E].
Qed.
End EnqueueFacts.
